(** * django_remote_forms.fields: field adapters and the comma-separated field

    A shallow embedding of [django_remote_forms/fields.py].  Python values
    are a small inductive type, the [OrderedDict] built by [as_dict] is an
    association list in insertion order, exceptions and the logger are a
    result-and-log monad, and the mutation of [self.choices] done by
    [CommaSeparatedField.prepare_value] is explicit state passing on the
    field record. *)

From Stdlib Require Import List String Ascii ZArith Bool Lia.
From Stdlib Require Import DecimalString.
Import ListNotations.
Local Open Scope list_scope.
Local Open Scope string_scope.
Set Warnings "-register-all".

(** ** Python values *)

(** [datetime.date], [datetime.time] and [datetime.datetime] instances. *)
Inductive Temporal : Type :=
| TDate (year month day : Z)
| TTime (hour minute second : Z)
| TDateTime (year month day hour minute second : Z).

Inductive Value : Type :=
| VNone
| VBool (b : bool)
| VInt (z : Z)
| VStr (s : string)
| VList (l : list Value)
| VTuple (l : list Value)
| VDict (d : list (string * Value))
| VTemporal (t : Temporal)
| VObj (id : nat) (attrs : list (string * Value))
| VCallable (id : nat) (returns : Value).

(** The exceptions of the language runtime, all of them subclasses of
    [Exception]; each carries its message. *)
Inductive exn : Type :=
| AttributeError (msg : string)
| KeyError (key : string)
| IndexError (msg : string)
| TypeError (msg : string)
| OtherError (msg : string).

(** [str(e)] *)
Definition exn_str (e : exn) : string :=
  match e with
  | AttributeError m | IndexError m | TypeError m | OtherError m => m
  | KeyError k => "'" ++ k ++ "'"
  end.

(** [django.core.exceptions.ValidationError], with the codes of the errors
    it carries. *)
Inductive validation_error : Type :=
| ValidationError (codes : list string).

(** A value returned or an exception raised. *)
Inductive Result (E A : Type) : Type :=
| Ok (a : A)
| Raise (e : E).
Arguments Ok {E A} a.
Arguments Raise {E A} e.

Definition Res (A : Type) : Type := Result exn A.

(** The results of form cleaning. *)
Definition Cleaned (A : Type) : Type := Result validation_error A.

Definition res_bind {E A B} (r : Result E A) (k : A -> Result E B)
  : Result E B :=
  match r with
  | Ok a => k a
  | Raise e => Raise e
  end.

(** ** Primitive operations of the language *)

Module Py.

(** Truth value testing: [if v], [a or b]. *)
Definition truthy (v : Value) : bool :=
  match v with
  | VNone => false
  | VBool b => b
  | VInt z => negb (z =? 0)%Z
  | VStr s => negb (s =? "")
  | VList l | VTuple l => match l with [] => false | _ => true end
  | VDict d => match d with [] => false | _ => true end
  | VTemporal _ | VObj _ _ | VCallable _ _ => true
  end.

(** [a or b] *)
Definition or (a b : Value) : Value := if truthy a then a else b.

Fixpoint assoc {A} (k : string) (d : list (string * A)) : option A :=
  match d with
  | [] => None
  | (k', v) :: d' => if k =? k' then Some v else assoc k d'
  end.

Definition temporal_eqb (a b : Temporal) : bool :=
  match a, b with
  | TDate y m d, TDate y' m' d' => (y =? y')%Z && (m =? m')%Z && (d =? d')%Z
  | TTime h m s, TTime h' m' s' => (h =? h')%Z && (m =? m')%Z && (s =? s')%Z
  | TDateTime y m d h mi s, TDateTime y' m' d' h' mi' s' =>
      (y =? y')%Z && (m =? m')%Z && (d =? d')%Z
      && (h =? h')%Z && (mi =? mi')%Z && (s =? s')%Z
  | _, _ => false
  end.

Definition int_of_bool (b : bool) : Z := if b then 1%Z else 0%Z.

(** [a == b].  Booleans are integers, sequences compare element-wise,
    dictionaries compare as sets of items, objects and callables by
    identity. *)
Fixpoint eq (a b : Value) {struct a} : bool :=
  match a, b with
  | VNone, VNone => true
  | VBool x, VBool y => Bool.eqb x y
  | VBool x, VInt y => (int_of_bool x =? y)%Z
  | VInt x, VBool y => (x =? int_of_bool y)%Z
  | VInt x, VInt y => (x =? y)%Z
  | VStr x, VStr y => (x =? y)
  | VList xs, VList ys | VTuple xs, VTuple ys =>
      (fix eq_seq (xs ys : list Value) {struct xs} : bool :=
         match xs, ys with
         | [], [] => true
         | x :: xs', y :: ys' => eq x y && eq_seq xs' ys'
         | _, _ => false
         end) xs ys
  | VDict d1, VDict d2 =>
      Nat.eqb (List.length d1) (List.length d2)
      && (fix eq_items (items : list (string * Value)) : bool :=
            match items with
            | [] => true
            | (k, v) :: items' =>
                match assoc k d2 with
                | Some v' => eq v v'
                | None => false
                end && eq_items items'
            end) d1
  | VTemporal x, VTemporal y => temporal_eqb x y
  | VObj i _, VObj j _ => (i =? j)%nat
  | VCallable i _, VCallable j _ => (i =? j)%nat
  | _, _ => false
  end.

(** [x in l] for a list [l]. *)
Definition contains (x : Value) (l : list Value) : bool :=
  existsb (eq x) l.

(** [getattr(v, name, default)] on data attributes; only objects carry
    any. *)
Definition getattr_default (v : Value) (name : string) (default : Value)
  : Value :=
  match v with
  | VObj _ attrs =>
      match assoc name attrs with
      | Some a => a
      | None => default
      end
  | _ => default
  end.

(** [type(v) is list] *)
Definition type_is_list (v : Value) : bool :=
  match v with VList _ => true | _ => false end.

(** [callable(v)] *)
Definition callable (v : Value) : bool :=
  match v with VCallable _ _ => true | _ => false end.

(** [v()] *)
Definition call (v : Value) : Res Value :=
  match v with
  | VCallable _ r => Ok r
  | _ => Raise (TypeError "object is not callable")
  end.

(** [len(v)] *)
Definition len (v : Value) : Res nat :=
  match v with
  | VStr s => Ok (String.length s)
  | VList l | VTuple l => Ok (List.length l)
  | VDict d => Ok (List.length d)
  | _ => Raise (TypeError "object has no len()")
  end.

(** [v[0]] on a sequence. *)
Definition item0 (v : Value) : Res Value :=
  match v with
  | VList l | VTuple l =>
      match l with
      | x :: _ => Ok x
      | [] => Raise (IndexError "list index out of range")
      end
  | VStr s =>
      match s with
      | String c _ => Ok (VStr (String c ""))
      | EmptyString => Raise (IndexError "string index out of range")
      end
  | _ => Raise (TypeError "object is not subscriptable")
  end.

(** [s.split(sep)] for a one-character separator. *)
Fixpoint split (sep : ascii) (s : string) : list string :=
  match s with
  | EmptyString => [""]
  | String c rest =>
      if Ascii.eqb c sep then "" :: split sep rest
      else match split sep rest with
           | tok :: toks => String c tok :: toks
           | [] => [String c ""]
           end
  end.

(** [sep.join(l)] on a list of strings. *)
Fixpoint join (sep : string) (l : list string) : string :=
  match l with
  | [] => ""
  | [x] => x
  | x :: rest => x ++ sep ++ join sep rest
  end.

(** [str(z)] for an integer. *)
Definition str_of_int (z : Z) : string :=
  NilZero.string_of_int (Z.to_int z).

End Py.

Definition comma : ascii := ","%char.

(** ** [collections.OrderedDict] with string keys *)

Module OD.

Definition t : Type := list (string * Value).

Definition empty : t := [].

(** [d[k] = v]: an existing key keeps its position, a new key goes last. *)
Fixpoint setitem (k : string) (v : Value) (d : t) : t :=
  match d with
  | [] => [(k, v)]
  | (k', v') :: d' =>
      if k =? k' then (k', v) :: d' else (k', v') :: setitem k v d'
  end.

(** [d[k]] *)
Definition getitem (k : string) (d : t) : Res Value :=
  match Py.assoc k d with
  | Some v => Ok v
  | None => Raise (KeyError k)
  end.

(** [d.update(items)], the items taken in their order. *)
Definition update (items : list (string * Value)) (d : t) : t :=
  fold_left (fun acc kv => setitem (fst kv) (snd kv) acc) items d.

Definition keys (d : t) : list string := map fst d.

End OD.

(** ** Results with a log: exceptions and [logger.warning] *)

Inductive LogLevel : Type := WARNING.

Record LogRecord : Type := { level : LogLevel; message : string }.

Definition M (A : Type) : Type :=
  list LogRecord -> Res A * list LogRecord.

Definition ret {A} (a : A) : M A := fun log => (Ok a, log).

Definition bind {A B} (m : M A) (k : A -> M B) : M B :=
  fun log =>
    match m log with
    | (Ok a, log') => k a log'
    | (Raise e, log') => (Raise e, log')
    end.

Definition lift {A} (r : Res A) : M A := fun log => (r, log).

(** [try: m  except Exception as e: handler(e)] *)
Definition try_except {A} (m : M A) (handler : exn -> M A) : M A :=
  fun log =>
    match m log with
    | (Ok a, log') => (Ok a, log')
    | (Raise e, log') => handler e log'
    end.

(** [logger.warning(msg)], the message already formatted. *)
Definition logger_warning (msg : string) : M unit :=
  fun log => (Ok tt, (log ++ [{| level := WARNING; message := msg |}])%list).

Declare Scope py_scope.
Delimit Scope py_scope with py.
Notation "x <- m ;; k" := (bind m (fun x => k))
  (at level 61, m at next level, right associativity) : py_scope.
Notation "m ;;; k" := (bind m (fun _ => k))
  (at level 61, right associativity) : py_scope.
Notation "x <~ r ;; k" := (res_bind r (fun x => k))
  (at level 61, r at next level, right associativity) : py_scope.

(** ** Framework objects *)

(** A [django.forms] widget: its class and its state. *)
Record Widget : Type := {
  widget_class_name : string;
  widget_attrs : list (string * Value)
}.

(** A [django.forms] field, with the attributes the adapters read.  An
    attribute a field class does not define is never read by the adapter of
    that class, but for [input_date_formats] and [input_time_formats]:
    [forms.SplitDateTimeField] hands the two lists to its sub-fields and
    stores neither, so they are [None] on a field that has no such
    attribute. *)
Record Field : Type := {
  class_name : string;
  required : bool;
  label : Value;
  initial : Value;
  help_text : Value;
  disabled : bool;
  error_messages : list (string * Value);
  widget : Widget;
  max_length : Value;
  min_length : Value;
  max_value : Value;
  min_value : Value;
  max_digits : Value;
  decimal_places : Value;
  input_formats : list string;
  choices : list (Value * string);
  coerce : Value;
  empty_value : Value;
  fields : Value;
  path : Value;
  match_ : Value;
  recursive : Value;
  input_date_formats : option Value;
  input_time_formats : option Value;
  validate_choices : bool;
  validators : list (list string -> option string)
}.

Definition set_choices (c : list (Value * string)) (f : Field) : Field :=
  {| class_name := class_name f; required := required f; label := label f;
     initial := initial f; help_text := help_text f; disabled := disabled f;
     error_messages := error_messages f; widget := widget f;
     max_length := max_length f; min_length := min_length f;
     max_value := max_value f; min_value := min_value f;
     max_digits := max_digits f; decimal_places := decimal_places f;
     input_formats := input_formats f; choices := c;
     coerce := coerce f; empty_value := empty_value f; fields := fields f;
     path := path f; match_ := match_ f; recursive := recursive f;
     input_date_formats := input_date_formats f;
     input_time_formats := input_time_formats f;
     validate_choices := validate_choices f; validators := validators f |}.

(** [django.conf.settings], the three lists the adapters read. *)
Record Settings : Type := {
  DATE_INPUT_FORMATS : list string;
  TIME_INPUT_FORMATS : list string;
  DATETIME_INPUT_FORMATS : list string
}.

(** A class of [django_remote_forms.widgets]: constructing it on a widget
    and a field name and calling [as_dict()] on the instance. *)
Definition RemoteWidgetClass : Type := Widget -> Value -> Res Value.

Definition DEFAULT_REMOTE_WIDGET_CLASS_NAME : string := "DefaultRemoteInput".

(** The adapter instance built by [RemoteField.__init__]. *)
Record Remote : Type := {
  field_name : Value;
  field : Field;
  form_initial_data : Value
}.

(** The adapter classes of the module. *)
Inductive RemoteClass : Type :=
| RemoteField | RemoteCharField | RemoteIntegerField | RemoteFloatField
| RemoteDecimalField | RemoteTimeField | RemoteDateField
| RemoteDateTimeField | RemoteRegexField | RemoteEmailField
| RemoteFileField | RemoteImageField | RemoteURLField | RemoteBooleanField
| RemoteNullBooleanField | RemoteChoiceField | RemoteModelChoiceField
| RemoteTypedChoiceField | RemoteMultipleChoiceField
| RemoteCommaSeparatedField | RemoteModelMultipleChoiceField
| RemoteTypedMultipleChoiceField | RemoteComboField | RemoteMultiValueField
| RemoteFilePathField | RemoteSplitDateTimeField | RemoteIPAddressField
| RemoteGenericIPAddressField | RemoteSlugField.

(** The base class in each [class X(Y)] header. *)
Definition parent (c : RemoteClass) : option RemoteClass :=
  match c with
  | RemoteField => None
  | RemoteCharField | RemoteIntegerField | RemoteTimeField | RemoteFileField
  | RemoteBooleanField | RemoteChoiceField | RemoteComboField
  | RemoteMultiValueField => Some RemoteField
  | RemoteFloatField | RemoteDecimalField => Some RemoteIntegerField
  | RemoteDateField | RemoteDateTimeField => Some RemoteTimeField
  | RemoteRegexField | RemoteEmailField | RemoteURLField
  | RemoteIPAddressField | RemoteGenericIPAddressField | RemoteSlugField =>
      Some RemoteCharField
  | RemoteImageField => Some RemoteFileField
  | RemoteNullBooleanField => Some RemoteBooleanField
  | RemoteModelChoiceField | RemoteTypedChoiceField
  | RemoteMultipleChoiceField | RemoteFilePathField => Some RemoteChoiceField
  | RemoteCommaSeparatedField | RemoteModelMultipleChoiceField
  | RemoteTypedMultipleChoiceField => Some RemoteMultipleChoiceField
  | RemoteSplitDateTimeField => Some RemoteMultiValueField
  end.

Local Open Scope py_scope.

(** [for x in xs: body], the body acting on a state that may raise. *)
Fixpoint for_each {E A S} (xs : list A) (body : A -> S -> Result E S)
  (s : S) : Result E S :=
  match xs with
  | [] => Ok s
  | x :: xs' => s' <~ body x s ;; for_each xs' body s'
  end.

(** [field_dict[key].append(x)]: the list held by the dictionary is
    mutated in place. *)
Definition dict_list_append (key : string) (x : Value) (d : OD.t)
  : Res OD.t :=
  l <~ OD.getitem key d ;;
  match l with
  | VList items => Ok (OD.setitem key (VList (items ++ [x])) d)
  | _ => Raise (AttributeError "object has no attribute 'append'")
  end.

(** [isinstance(t, datetime.date)]: [datetime.datetime] is a subclass of
    [datetime.date]. *)
Definition isinstance_date (t : Temporal) : bool :=
  match t with TDate _ _ _ | TDateTime _ _ _ _ _ _ => true | _ => false end.

Definition isinstance_time (t : Temporal) : bool :=
  match t with TTime _ _ _ => true | _ => false end.

Definition isinstance_datetime (t : Temporal) : bool :=
  match t with TDateTime _ _ _ _ _ _ => true | _ => false end.

(** A choice entry of the serialized [choices] list. *)
Definition choice_entry (value display : string) : Value :=
  VDict [("value", VStr value); ("display", VStr display)].

Definition NOT_VALID : string := " (Not valid)".

(** [self.field.<name>] for an attribute the field may not have. *)
Definition field_getattr (f : Field) (name : string) (a : option Value)
  : Res Value :=
  match a with
  | Some v => Ok v
  | None =>
      Raise (AttributeError
               ("'" ++ class_name f ++ "' object has no attribute '"
                ++ name ++ "'"))
  end.

Section Adapters.

(** [getattr(widgets, name)] on the module [django_remote_forms.widgets]. *)
Variable widgets_getattr : string -> Res RemoteWidgetClass.
Variable settings : Settings.
(** [t.strftime(fmt)] of the [datetime] module. *)
Variable strftime : Temporal -> string -> string.
(** [str(v)] for a value that is not [None], a boolean, an integer or a
    string: the [__str__] of its class. *)
Variable object_str : Value -> string.
(** [type(v).__name__] for an object or a callable: the class of such a
    value is not part of [Value]. *)
Variable object_type_name : Value -> string.

(** The name of the type of [v], as exception messages print it. *)
Definition py_type_name (v : Value) : string :=
  match v with
  | VNone => "NoneType"
  | VBool _ => "bool"
  | VInt _ => "int"
  | VStr _ => "str"
  | VList _ => "list"
  | VTuple _ => "tuple"
  | VDict _ => "dict"
  | VTemporal (TDate _ _ _) => "datetime.date"
  | VTemporal (TTime _ _ _) => "datetime.time"
  | VTemporal (TDateTime _ _ _ _ _ _) => "datetime.datetime"
  | VObj _ _ | VCallable _ _ => object_type_name v
  end.

(** [str(v)] *)
Definition py_str (v : Value) : string :=
  match v with
  | VNone => "None"
  | VBool true => "True"
  | VBool false => "False"
  | VInt z => Py.str_of_int z
  | VStr s => s
  | _ => object_str v
  end.

(** [t.strftime(fmt)] with [fmt] a value. *)
Definition py_strftime (t : Temporal) (fmt : Value) : Res Value :=
  match fmt with
  | VStr s => Ok (VStr (strftime t s))
  | _ => Raise (TypeError "strftime() argument 1 must be str")
  end.

(** *** RemoteField *)

(** Lines 43-48 of [RemoteField.as_dict]: the widget adapter class. *)
Definition resolve_remote_widget_class (self : Remote)
  : M RemoteWidgetClass :=
  let remote_widget_class_name :=
    "Remote" ++ widget_class_name (widget (field self)) in
  try_except
    (lift (widgets_getattr remote_widget_class_name))
    (fun e =>
       logger_warning ("Error serializing " ++ remote_widget_class_name
                       ++ ": " ++ exn_str e) ;;;
       lift (widgets_getattr DEFAULT_REMOTE_WIDGET_CLASS_NAME)).

Definition RemoteField_as_dict (self : Remote) : M OD.t :=
  let field_dict := OD.empty in
  let field_dict :=
    OD.setitem "title" (VStr (class_name (field self))) field_dict in
  let field_dict :=
    OD.setitem "required" (VBool (required (field self))) field_dict in
  let field_dict := OD.setitem "label" (label (field self)) field_dict in
  let field_dict :=
    OD.setitem "initial"
      (Py.or (form_initial_data self) (initial (field self))) field_dict in
  let field_dict :=
    OD.setitem "help_text" (help_text (field self)) field_dict in
  let field_dict :=
    OD.setitem "disabled" (VBool (disabled (field self))) field_dict in
  let field_dict :=
    OD.setitem "error_messages" (VDict (error_messages (field self)))
      field_dict in
  remote_widget_class <- resolve_remote_widget_class self ;;
  widget_dict <-
    lift (remote_widget_class (widget (field self)) (field_name self)) ;;
  let field_dict := OD.setitem "widget" widget_dict field_dict in
  ret field_dict.

Definition RemoteCharField_as_dict (self : Remote) : M OD.t :=
  field_dict <- RemoteField_as_dict self ;;
  ret (OD.update [("max_length", max_length (field self));
                  ("min_length", min_length (field self))] field_dict).

Definition RemoteIntegerField_as_dict (self : Remote) : M OD.t :=
  field_dict <- RemoteField_as_dict self ;;
  ret (OD.update [("max_value", max_value (field self));
                  ("min_value", min_value (field self))] field_dict).

Definition RemoteFloatField_as_dict (self : Remote) : M OD.t :=
  RemoteIntegerField_as_dict self.

Definition RemoteDecimalField_as_dict (self : Remote) : M OD.t :=
  field_dict <- RemoteIntegerField_as_dict self ;;
  ret (OD.update [("max_digits", max_digits (field self));
                  ("decimal_places", decimal_places (field self))]
         field_dict).

Definition RemoteTimeField_as_dict (self : Remote) : M OD.t :=
  field_dict <- RemoteField_as_dict self ;;
  let field_dict :=
    OD.setitem "input_formats"
      (VList (map VStr (input_formats (field self)))) field_dict in
  lift (
    initial0 <~ OD.getitem "initial" field_dict ;;
    if Py.truthy initial0 then
      field_dict <~
        (if Py.callable initial0 then
           r <~ Py.call initial0 ;;
           Ok (OD.setitem "initial" r field_dict)
         else Ok field_dict) ;;
      initial1 <~ OD.getitem "initial" field_dict ;;
      match initial1 with
      | VTemporal t =>
          formats <~ OD.getitem "input_formats" field_dict ;;
          n <~ Py.len formats ;;
          let field_dict :=
            if Nat.eqb n 0 then
              if isinstance_date t then
                OD.setitem "input_formats"
                  (VList (map VStr (DATE_INPUT_FORMATS settings)))
                  field_dict
              else if isinstance_time t then
                OD.setitem "input_formats"
                  (VList (map VStr (TIME_INPUT_FORMATS settings)))
                  field_dict
              else if isinstance_datetime t then
                OD.setitem "input_formats"
                  (VList (map VStr (DATETIME_INPUT_FORMATS settings)))
                  field_dict
              else field_dict
            else field_dict in
          formats <~ OD.getitem "input_formats" field_dict ;;
          input_format <~ Py.item0 formats ;;
          text <~ py_strftime t input_format ;;
          Ok (OD.setitem "initial" text field_dict)
      | _ => Ok field_dict
      end
    else Ok field_dict).

Definition RemoteDateField_as_dict (self : Remote) : M OD.t :=
  RemoteTimeField_as_dict self.

Definition RemoteDateTimeField_as_dict (self : Remote) : M OD.t :=
  RemoteTimeField_as_dict self.

Definition RemoteRegexField_as_dict (self : Remote) : M OD.t :=
  field_dict <- RemoteCharField_as_dict self ;;
  ret field_dict.

Definition RemoteEmailField_as_dict (self : Remote) : M OD.t :=
  RemoteCharField_as_dict self.

Definition RemoteFileField_as_dict (self : Remote) : M OD.t :=
  field_dict <- RemoteField_as_dict self ;;
  ret (OD.setitem "max_length" (max_length (field self)) field_dict).

Definition RemoteImageField_as_dict (self : Remote) : M OD.t :=
  RemoteFileField_as_dict self.

Definition RemoteURLField_as_dict (self : Remote) : M OD.t :=
  RemoteCharField_as_dict self.

Definition RemoteBooleanField_as_dict (self : Remote) : M OD.t :=
  RemoteField_as_dict self.

Definition RemoteNullBooleanField_as_dict (self : Remote) : M OD.t :=
  RemoteBooleanField_as_dict self.

Definition RemoteChoiceField_as_dict (self : Remote) : M OD.t :=
  field_dict <- RemoteField_as_dict self ;;
  let field_dict := OD.setitem "choices" (VList []) field_dict in
  lift (for_each (choices (field self))
          (fun kv field_dict =>
             let '(key, value) := kv in
             dict_list_append "choices"
               (choice_entry (py_str key) value) field_dict)
          field_dict).

Definition RemoteModelChoiceField_as_dict (self : Remote) : M OD.t :=
  field_dict <- RemoteChoiceField_as_dict self ;;
  lift (
    initial0 <~ OD.getitem "initial" field_dict ;;
    Ok (OD.setitem "initial" (Py.getattr_default initial0 "pk" initial0)
          field_dict)).

Definition RemoteTypedChoiceField_as_dict (self : Remote) : M OD.t :=
  field_dict <- RemoteChoiceField_as_dict self ;;
  ret (OD.update [("coerce", coerce (field self));
                  ("empty_value", empty_value (field self))] field_dict).

Definition RemoteMultipleChoiceField_as_dict (self : Remote) : M OD.t :=
  RemoteChoiceField_as_dict self.

Definition RemoteCommaSeparatedField_as_dict (self : Remote) : M OD.t :=
  field_dict <- RemoteMultipleChoiceField_as_dict self ;;
  lift (
    initial0 <~ OD.getitem "initial" field_dict ;;
    if Py.truthy initial0 then
      match initial0 with
      | VStr s =>
          let initial_list := Py.split comma s in
          for_each initial_list
            (fun initial_value field_dict =>
               let display_value :=
                 if validate_choices (field self)
                 then initial_value ++ NOT_VALID
                 else initial_value in
               let initial_option :=
                 choice_entry initial_value display_value in
               current <~ OD.getitem "choices" field_dict ;;
               match current with
               | VList items =>
                   if negb (Py.contains initial_option items)
                   then dict_list_append "choices" initial_option
                          field_dict
                   else Ok field_dict
               | _ => Raise (TypeError "argument is not iterable")
               end)
            field_dict
      | _ =>
          Raise (AttributeError
                   ("'" ++ py_type_name initial0
                    ++ "' object has no attribute 'split'"))
      end
    else Ok field_dict).

Definition RemoteModelMultipleChoiceField_as_dict (self : Remote)
  : M OD.t :=
  field_dict <- RemoteMultipleChoiceField_as_dict self ;;
  lift (
    initial0 <~ OD.getitem "initial" field_dict ;;
    match initial0 with
    | VList items =>
        Ok (OD.setitem "initial"
              (VList (map (fun i => Py.getattr_default i "pk" i) items))
              field_dict)
    | _ =>
        Ok (OD.setitem "initial"
              (Py.getattr_default initial0 "pk" initial0) field_dict)
    end).

Definition RemoteTypedMultipleChoiceField_as_dict (self : Remote)
  : M OD.t :=
  field_dict <- RemoteMultipleChoiceField_as_dict self ;;
  ret (OD.update [("coerce", coerce (field self));
                  ("empty_value", empty_value (field self))] field_dict).

Definition RemoteComboField_as_dict (self : Remote) : M OD.t :=
  field_dict <- RemoteField_as_dict self ;;
  ret (OD.update [("fields", fields (field self))] field_dict).

Definition RemoteMultiValueField_as_dict (self : Remote) : M OD.t :=
  field_dict <- RemoteField_as_dict self ;;
  ret (OD.setitem "fields" (fields (field self)) field_dict).

Definition RemoteFilePathField_as_dict (self : Remote) : M OD.t :=
  field_dict <- RemoteChoiceField_as_dict self ;;
  ret (OD.update [("path", path (field self));
                  ("match", match_ (field self));
                  ("recursive", recursive (field self))] field_dict).

Definition RemoteSplitDateTimeField_as_dict (self : Remote) : M OD.t :=
  field_dict <- RemoteMultiValueField_as_dict self ;;
  lift (
    date_formats <~
      field_getattr (field self) "input_date_formats"
        (input_date_formats (field self)) ;;
    time_formats <~
      field_getattr (field self) "input_time_formats"
        (input_time_formats (field self)) ;;
    Ok (OD.update [("input_date_formats", date_formats);
                   ("input_time_formats", time_formats)] field_dict)).

Definition RemoteIPAddressField_as_dict (self : Remote) : M OD.t :=
  RemoteCharField_as_dict self.

Definition RemoteGenericIPAddressField_as_dict (self : Remote) : M OD.t :=
  RemoteCharField_as_dict self.

Definition RemoteSlugField_as_dict (self : Remote) : M OD.t :=
  RemoteCharField_as_dict self.

(** [X(field, form_initial_data, field_name).as_dict()] for the adapter
    class [X]. *)
Definition as_dict (c : RemoteClass) : Remote -> M OD.t :=
  match c with
  | RemoteField => RemoteField_as_dict
  | RemoteCharField => RemoteCharField_as_dict
  | RemoteIntegerField => RemoteIntegerField_as_dict
  | RemoteFloatField => RemoteFloatField_as_dict
  | RemoteDecimalField => RemoteDecimalField_as_dict
  | RemoteTimeField => RemoteTimeField_as_dict
  | RemoteDateField => RemoteDateField_as_dict
  | RemoteDateTimeField => RemoteDateTimeField_as_dict
  | RemoteRegexField => RemoteRegexField_as_dict
  | RemoteEmailField => RemoteEmailField_as_dict
  | RemoteFileField => RemoteFileField_as_dict
  | RemoteImageField => RemoteImageField_as_dict
  | RemoteURLField => RemoteURLField_as_dict
  | RemoteBooleanField => RemoteBooleanField_as_dict
  | RemoteNullBooleanField => RemoteNullBooleanField_as_dict
  | RemoteChoiceField => RemoteChoiceField_as_dict
  | RemoteModelChoiceField => RemoteModelChoiceField_as_dict
  | RemoteTypedChoiceField => RemoteTypedChoiceField_as_dict
  | RemoteMultipleChoiceField => RemoteMultipleChoiceField_as_dict
  | RemoteCommaSeparatedField => RemoteCommaSeparatedField_as_dict
  | RemoteModelMultipleChoiceField =>
      RemoteModelMultipleChoiceField_as_dict
  | RemoteTypedMultipleChoiceField =>
      RemoteTypedMultipleChoiceField_as_dict
  | RemoteComboField => RemoteComboField_as_dict
  | RemoteMultiValueField => RemoteMultiValueField_as_dict
  | RemoteFilePathField => RemoteFilePathField_as_dict
  | RemoteSplitDateTimeField => RemoteSplitDateTimeField_as_dict
  | RemoteIPAddressField => RemoteIPAddressField_as_dict
  | RemoteGenericIPAddressField => RemoteGenericIPAddressField_as_dict
  | RemoteSlugField => RemoteSlugField_as_dict
  end.

(** *** The inherited methods of [forms.MultipleChoiceField]

    [CommaSeparatedField] calls these through [super()]; they follow
    [django/forms/fields.py].  [valid_value] is looked up on the instance,
    so the base methods take it as an argument. *)

(** [ChoiceField.valid_value], on flat choices. *)
Definition ChoiceField_valid_value (self : Field) (value : string) : bool :=
  let text_value := value in
  existsb (fun kv => Py.eq (VStr value) (fst kv)
                     || (text_value =? py_str (fst kv)))
    (choices self).

(** [MultipleChoiceField.to_python] *)
Definition MultipleChoiceField_to_python (value : Value)
  : Cleaned (list string) :=
  if negb (Py.truthy value) then Ok []
  else match value with
       | VList l | VTuple l => Ok (map py_str l)
       | _ => Raise (ValidationError ["invalid_list"])
       end.

(** [MultipleChoiceField.validate] *)
Definition MultipleChoiceField_validate
  (valid_value : Field -> string -> bool) (self : Field)
  (value : list string) : Cleaned unit :=
  if required self && match value with [] => true | _ => false end
  then Raise (ValidationError ["required"])
  else for_each value
         (fun val _ =>
            if negb (valid_value self val)
            then Raise (ValidationError ["invalid_choice"])
            else Ok tt)
         tt.

(** [Field.run_validators]: the empty list is one of [empty_values]. *)
Definition Field_run_validators (self : Field) (value : list string)
  : Cleaned unit :=
  match value with
  | [] => Ok tt
  | _ =>
      let errors :=
        flat_map (fun v => match v value with
                           | Some code => [code]
                           | None => []
                           end) (validators self) in
      match errors with
      | [] => Ok tt
      | _ => Raise (ValidationError errors)
      end
  end.

(** [Field.clean] as inherited by [MultipleChoiceField]. *)
Definition MultipleChoiceField_clean
  (valid_value : Field -> string -> bool) (self : Field) (value : Value)
  : Cleaned (list string) :=
  value <~ MultipleChoiceField_to_python value ;;
  _ <~ MultipleChoiceField_validate valid_value self value ;;
  _ <~ Field_run_validators self value ;;
  Ok value.

(** *** CommaSeparatedField *)

(** [(v, v) in choices]: tuples compare component by component. *)
Definition pair_in_choices (v : string) (cs : list (Value * string))
  : bool :=
  existsb (fun kv => Py.eq (VStr v) (fst kv) && (v =? snd kv)) cs.

(** One step of the comprehension of [prepare_value]. *)
Definition register_token (self : Field) (v : string) : Field :=
  if validate_choices self && Py.truthy (VStr v)
     && negb (pair_in_choices v (choices self))
  then set_choices (choices self ++ [(VStr v, v ++ NOT_VALID)]) self
  else self.

(** [prepare_value] returns its result and leaves the field with the
    choices it appended. *)
Definition CommaSeparatedField_prepare_value (self : Field) (value : Value)
  : Field * Value :=
  match value with
  | VStr s =>
      let value_list := Py.split comma s in
      let self := set_choices (choices self) self in
      let self := fold_left register_token value_list self in
      (self, VList (map VStr value_list))
  | _ => (self, value)
  end.

Definition CommaSeparatedField_valid_value (self : Field) (value : string)
  : bool :=
  if validate_choices self then ChoiceField_valid_value self value
  else true.

Definition CommaSeparatedField_clean (self : Field) (value : Value)
  : Cleaned Value :=
  value <~ MultipleChoiceField_clean CommaSeparatedField_valid_value
             self value ;;
  Ok (VStr (Py.join "," value)).

(** *** Vocabulary of the statements *)

(** The keys written by [RemoteField.as_dict], in insertion order. *)
Definition base_keys : list string :=
  ["title"; "required"; "label"; "initial"; "help_text"; "disabled";
   "error_messages"; "widget"].

(** The keys an adapter class writes itself that no ancestor wrote. *)
Definition own_keys (c : RemoteClass) : list string :=
  match c with
  | RemoteCharField => ["max_length"; "min_length"]
  | RemoteIntegerField => ["max_value"; "min_value"]
  | RemoteDecimalField => ["max_digits"; "decimal_places"]
  | RemoteTimeField => ["input_formats"]
  | RemoteFileField => ["max_length"]
  | RemoteChoiceField => ["choices"]
  | RemoteTypedChoiceField | RemoteTypedMultipleChoiceField =>
      ["coerce"; "empty_value"]
  | RemoteComboField | RemoteMultiValueField => ["fields"]
  | RemoteFilePathField => ["path"; "match"; "recursive"]
  | RemoteSplitDateTimeField =>
      ["input_date_formats"; "input_time_formats"]
  | _ => []
  end.

(** The class and its ancestors, the class first. *)
Fixpoint lineage (fuel : nat) (c : RemoteClass) : list RemoteClass :=
  match fuel with
  | O => []
  | S fuel' =>
      c :: match parent c with
           | Some p => lineage fuel' p
           | None => []
           end
  end.

(** The extension keys of an adapter category: those of its ancestors,
    oldest first, then its own. *)
Definition extension_keys (c : RemoteClass) : list string :=
  flat_map own_keys (rev (lineage 5 c)).

(** The adapter classes whose own code, after the base dictionary is
    built, can raise: the time family indexes a list, the comma-separated
    adapter calls a method of the initial value, and the split-datetime
    adapter reads two attributes the framework's field does not store. *)
Definition own_code_can_raise (c : RemoteClass) : bool :=
  match c with
  | RemoteTimeField | RemoteDateField | RemoteDateTimeField
  | RemoteCommaSeparatedField | RemoteSplitDateTimeField => true
  | _ => false
  end.

(** The dictionary [RemoteField.as_dict] returns when the widget adapter
    gave [widget_dict]. *)
Definition base_dict (self : Remote) (widget_dict : Value) : OD.t :=
  [("title", VStr (class_name (field self)));
   ("required", VBool (required (field self)));
   ("label", label (field self));
   ("initial", Py.or (form_initial_data self) (initial (field self)));
   ("help_text", help_text (field self));
   ("disabled", VBool (disabled (field self)));
   ("error_messages", VDict (error_messages (field self)));
   ("widget", widget_dict)].

(** The entries [RemoteChoiceField.as_dict] builds from the declared
    choices. *)
Definition declared_entries (f : Field) : list Value :=
  map (fun kv => choice_entry (py_str (fst kv)) (snd kv)) (choices f).

(** The entry [RemoteCommaSeparatedField.as_dict] builds for a token. *)
Definition token_entry (f : Field) (token : string) : Value :=
  choice_entry token
    (if validate_choices f then token ++ NOT_VALID else token).

(** [e] is a dictionary with a string under [value] and under [display]. *)
Definition is_entry (e : Value) : Prop :=
  exists a b, e = choice_entry a b.

(** One turn of the loop of [RemoteCommaSeparatedField.as_dict] on the
    list held under [choices]. *)
Definition add_entry (f : Field) (items : list Value) (token : string)
  : list Value :=
  if Py.contains (token_entry f token) items then items
  else items ++ [token_entry f token].

(** [obj] exposes the attribute [pk] with value [pk]. *)
Definition has_pk (obj pk : Value) : Prop :=
  exists id attrs, obj = VObj id attrs /\ Py.assoc "pk" attrs = Some pk.

Definition no_pk (obj : Value) : Prop := forall pk, ~ has_pk obj pk.

(** *** A concrete environment for the examples *)

Definition pad2 (z : Z) : string :=
  if (z <? 10)%Z then "0" ++ Py.str_of_int z else Py.str_of_int z.

(** The fields of a value as [strftime] sees them; a [time] prints the
    date 1900-01-01 and a [date] prints midnight. *)
Definition temporal_fields (t : Temporal) : Z * Z * Z * Z * Z * Z :=
  match t with
  | TDate y m d => (y, m, d, 0, 0, 0)%Z
  | TTime h mi s => (1900, 1, 1, h, mi, s)%Z
  | TDateTime y m d h mi s => (y, m, d, h, mi, s)
  end.

Definition example_directive (t : Temporal) (c : ascii) : string :=
  let '(y, m, d, h, mi, s) := temporal_fields t in
  if Ascii.eqb c "Y" then Py.str_of_int y
  else if Ascii.eqb c "m" then pad2 m
  else if Ascii.eqb c "d" then pad2 d
  else if Ascii.eqb c "H" then pad2 h
  else if Ascii.eqb c "M" then pad2 mi
  else if Ascii.eqb c "S" then pad2 s
  else String "%" (String c "").

(** [strftime] on the directives [%Y %m %d %H %M %S]. *)
Fixpoint example_strftime (t : Temporal) (fmt : string) : string :=
  match fmt with
  | EmptyString => ""
  | String c rest =>
      if Ascii.eqb c "%" then
        match rest with
        | String c' rest' =>
            example_directive t c' ++ example_strftime t rest'
        | EmptyString => "%"
        end
      else String c (example_strftime t rest)
  end.

(** The defaults of [django/conf/global_settings.py]. *)
Definition example_settings : Settings :=
  {| DATE_INPUT_FORMATS :=
       ["%Y-%m-%d"; "%m/%d/%Y"; "%m/%d/%y"; "%b %d %Y"; "%b %d, %Y";
        "%d %b %Y"; "%d %b, %Y"; "%B %d %Y"; "%B %d, %Y"; "%d %B %Y";
        "%d %B, %Y"];
     TIME_INPUT_FORMATS := ["%H:%M:%S"; "%H:%M:%S.%f"; "%H:%M"];
     DATETIME_INPUT_FORMATS :=
       ["%Y-%m-%d %H:%M:%S"; "%Y-%m-%d %H:%M:%S.%f"; "%Y-%m-%d %H:%M";
        "%m/%d/%Y %H:%M:%S"; "%m/%d/%Y %H:%M:%S.%f"; "%m/%d/%Y %H:%M";
        "%m/%d/%y %H:%M:%S"; "%m/%d/%y %H:%M:%S.%f"; "%m/%d/%y %H:%M"] |}.

Definition example_widget_class (title : string) : RemoteWidgetClass :=
  fun w name =>
    Ok (VDict [("title", VStr title); ("name", name);
               ("attrs", VDict (widget_attrs w))]).

(** A widgets module holding [DefaultRemoteInput] and [RemoteTextInput]. *)
Definition example_widgets_getattr (name : string)
  : Res RemoteWidgetClass :=
  if name =? "DefaultRemoteInput" then Ok (example_widget_class "default")
  else if name =? "RemoteTextInput" then Ok (example_widget_class "text")
  else Raise (AttributeError
                ("module 'django_remote_forms.widgets' has no attribute '"
                 ++ name ++ "'")).

Definition example_object_str (v : Value) : string := "<object>".

Definition example_type_name (v : Value) : string :=
  match v with
  | VCallable _ _ => "function"
  | _ => "Model"
  end.

Definition example_widget (cls : string) : Widget :=
  {| widget_class_name := cls; widget_attrs := [] |}.

(** A field of class [cls] with the attributes the examples vary. *)
Definition example_field (cls widget_cls : string) (init : Value)
  (formats : list string) (cs : list (Value * string)) (vc : bool)
  : Field :=
  {| class_name := cls; required := true; label := VNone;
     initial := init; help_text := VStr ""; disabled := false;
     error_messages := [("required", VStr "This field is required.")];
     widget := example_widget widget_cls;
     max_length := VNone; min_length := VNone;
     max_value := VNone; min_value := VNone;
     max_digits := VNone; decimal_places := VNone;
     input_formats := formats; choices := cs;
     coerce := VNone; empty_value := VStr ""; fields := VList [];
     path := VNone; match_ := VNone; recursive := VBool false;
     input_date_formats := None; input_time_formats := None;
     validate_choices := vc; validators := [] |}.

Definition example_remote (f : Field) (override : Value) : Remote :=
  {| field_name := VStr "name"; field := f;
     form_initial_data := override |}.

(** *** Vocabulary of the further properties *)

(** The keys of its parent's dictionary an adapter class assigns again. *)
Definition rewritten_keys (c : RemoteClass) : list string :=
  match c with
  | RemoteTimeField | RemoteModelChoiceField
  | RemoteModelMultipleChoiceField => ["initial"]
  | RemoteCommaSeparatedField => ["choices"]
  | _ => []
  end.

(** Every key an adapter class assigns in its own [as_dict]. *)
Definition written_keys (c : RemoteClass) : list string :=
  (own_keys c ++ rewritten_keys c)%list.

(** [d] holds what [d'] holds under every key outside [written]. *)
Definition frame (written : list string) (d' d : OD.t) : Prop :=
  forall k, ~ In k written -> OD.getitem k d = OD.getitem k d'.

(** [RemoteTimeField] and the two classes that inherit its [as_dict]. *)
Definition time_family (c : RemoteClass) : bool :=
  match c with
  | RemoteTimeField | RemoteDateField | RemoteDateTimeField => true
  | _ => false
  end.

(** The classes below [RemoteChoiceField] that leave [choices] as that
    class built it. *)
Definition keeps_declared_choices (c : RemoteClass) : bool :=
  match c with
  | RemoteChoiceField | RemoteModelChoiceField | RemoteTypedChoiceField
  | RemoteMultipleChoiceField | RemoteModelMultipleChoiceField
  | RemoteTypedMultipleChoiceField | RemoteFilePathField => true
  | _ => false
  end.

(** The warning [RemoteField.as_dict] logs when the lookup of the widget
    adapter raised [e]. *)
Definition lookup_warning (self : Remote) (e : exn) : LogRecord :=
  {| level := WARNING;
     message := "Error serializing Remote"
                ++ widget_class_name (widget (field self))
                ++ ": " ++ exn_str e |}.

(** The tokens [prepare_value] registers on a validating field: the
    non-empty ones for which [(v, v)] is not a choice. *)
Definition unregistered (f : Field) (v : string) : bool :=
  Py.truthy (VStr v) && negb (pair_in_choices v (choices f)).

Definition registered_choices (f : Field) (tokens : list string)
  : list (Value * string) :=
  map (fun v => (VStr v, v ++ NOT_VALID)) (filter (unregistered f) tokens).

(** A widgets module with no adapter class at all. *)
Definition empty_widgets_getattr (name : string) : Res RemoteWidgetClass :=
  Raise (AttributeError
           ("module 'django_remote_forms.widgets' has no attribute '"
            ++ name ++ "'")).

(** Settings whose three lists are empty. *)
Definition empty_settings : Settings :=
  {| DATE_INPUT_FORMATS := []; TIME_INPUT_FORMATS := [];
     DATETIME_INPUT_FORMATS := [] |}.

(** [sep in s] *)
Fixpoint contains_char (sep : ascii) (s : string) : bool :=
  match s with
  | EmptyString => false
  | String c rest => Ascii.eqb c sep || contains_char sep rest
  end.

(** ** Properties *)

(** *** Dictionaries *)

Lemma getitem_setitem_same (k : string) (v : Value) (d : OD.t) :
  OD.getitem k (OD.setitem k v d) = Ok v.
Proof.
  unfold OD.getitem.
  induction d as [|[k' v'] d IH]; simpl.
  - now rewrite String.eqb_refl.
  - destruct (k =? k') eqn:E; simpl; rewrite E; auto.
Qed.

Lemma getitem_setitem_other (k k' : string) (v : Value) (d : OD.t) :
  k <> k' -> OD.getitem k (OD.setitem k' v d) = OD.getitem k d.
Proof.
  intros Hne. unfold OD.getitem.
  induction d as [|[k0 v0] d IH]; simpl.
  - apply String.eqb_neq in Hne. now rewrite Hne.
  - destruct (k' =? k0) eqn:E; simpl.
    + apply String.eqb_eq in E. subst k0.
      apply String.eqb_neq in Hne. now rewrite Hne.
    + destruct (k =? k0); auto.
Qed.

Lemma setitem_setitem_same (k : string) (v v' : Value) (d : OD.t) :
  OD.setitem k v (OD.setitem k v' d) = OD.setitem k v d.
Proof.
  induction d as [|[k0 v0] d IH]; simpl.
  - now rewrite String.eqb_refl.
  - destruct (k =? k0) eqn:E; simpl; rewrite E; congruence.
Qed.

Lemma setitem_getitem_id (k : string) (v : Value) (d : OD.t) :
  OD.getitem k d = Ok v -> OD.setitem k v d = d.
Proof.
  unfold OD.getitem.
  induction d as [|[k0 w] d IH]; simpl; [discriminate|].
  destruct (k =? k0) eqn:E; intros H.
  - inversion H; subst. reflexivity.
  - f_equal. now apply IH.
Qed.

Lemma keys_setitem_present (k : string) (v v0 : Value) (d : OD.t) :
  OD.getitem k d = Ok v0 -> OD.keys (OD.setitem k v d) = OD.keys d.
Proof.
  unfold OD.getitem, OD.keys.
  induction d as [|[k0 w] d IH]; simpl; [discriminate|].
  destruct (k =? k0) eqn:E; simpl; intros H; [reflexivity|].
  f_equal. now apply IH.
Qed.

(** *** Loops over the dictionary *)

Lemma for_each_invariant {A S} (P : S -> Prop) (body : A -> S -> Res S)
  (xs : list A) :
  (forall x s s', body x s = Ok s' -> P s -> P s') ->
  forall s s', for_each xs body s = Ok s' -> P s -> P s'.
Proof.
  intros Hbody. induction xs as [|x xs IH]; simpl; intros s s' H Hs.
  - now inversion H; subst.
  - destruct (body x s) as [s1|e] eqn:E; simpl in H; [|discriminate].
    eapply IH; eauto.
Qed.

Lemma for_each_ext {A S} (body body' : A -> S -> Res S) (xs : list A) :
  (forall x s, body x s = body' x s) ->
  forall s, for_each xs body s = for_each xs body' s.
Proof.
  intros Hext. induction xs as [|x xs IH]; simpl; intros s; [reflexivity|].
  rewrite Hext. destruct (body' x s); simpl; auto.
Qed.

Lemma for_each_append (A : Type) (g : A -> Value) (xs : list A) :
  forall (d : OD.t) (items : list Value),
    OD.getitem "choices" d = Ok (VList items) ->
    for_each xs (fun x d => dict_list_append "choices" (g x) d) d
    = Ok (OD.setitem "choices" (VList (items ++ map g xs)) d).
Proof.
  induction xs as [|x xs IH]; simpl; intros d items Hd.
  - rewrite app_nil_r. f_equal. symmetry. now apply setitem_getitem_id.
  - unfold dict_list_append at 1. rewrite Hd. simpl.
    rewrite (IH _ (items ++ [g x])%list).
    + rewrite setitem_setitem_same, <- app_assoc. reflexivity.
    + apply getitem_setitem_same.
Qed.

(** *** The base adapter *)

Lemma RemoteField_as_dict_unfold (self : Remote) (log : list LogRecord) :
  RemoteField_as_dict self log =
  match resolve_remote_widget_class self log with
  | (Ok cls, log1) =>
      match cls (widget (field self)) (field_name self) with
      | Ok widget_dict => (Ok (base_dict self widget_dict), log1)
      | Raise e => (Raise e, log1)
      end
  | (Raise e, log1) => (Raise e, log1)
  end.
Proof.
  unfold RemoteField_as_dict, bind, lift, ret.
  destruct (resolve_remote_widget_class self log) as [[cls|e] log1];
    [|reflexivity].
  destruct (cls (widget (field self)) (field_name self)); reflexivity.
Qed.

Lemma RemoteField_as_dict_inv (self : Remote) log d log' :
  RemoteField_as_dict self log = (Ok d, log') ->
  exists widget_dict, d = base_dict self widget_dict.
Proof.
  rewrite RemoteField_as_dict_unfold.
  destruct (resolve_remote_widget_class self log) as [[cls|e] log1];
    [|discriminate].
  destruct (cls (widget (field self)) (field_name self)) as [wd|e];
    [|discriminate].
  intros H; inversion H; subst. now exists wd.
Qed.

Lemma bind_inv {A B} (m : M A) (k : A -> M B) log b log' :
  bind m k log = (Ok b, log') ->
  exists a log1, m log = (Ok a, log1) /\ k a log1 = (Ok b, log').
Proof.
  unfold bind. destruct (m log) as [[a|e] log1]; [|discriminate].
  intros H. now exists a, log1.
Qed.

Lemma lift_inv {A} (r : Res A) log a log' :
  lift r log = (Ok a, log') -> r = Ok a /\ log' = log.
Proof. unfold lift. intros H; inversion H; auto. Qed.

Lemma ret_inv {A} (a a' : A) log log' :
  ret a log = (Ok a', log') -> a' = a /\ log' = log.
Proof. unfold ret. intros H; inversion H; auto. Qed.

(** [RemoteChoiceField.as_dict] is the base dictionary with the declared
    entries under [choices]. *)
Lemma RemoteChoiceField_as_dict_inv (self : Remote) log d log' :
  RemoteChoiceField_as_dict self log = (Ok d, log') ->
  exists widget_dict,
    RemoteField_as_dict self log = (Ok (base_dict self widget_dict), log')
    /\ d = (base_dict self widget_dict
            ++ [("choices", VList (declared_entries (field self)))])%list.
Proof.
  unfold RemoteChoiceField_as_dict. intros H.
  apply bind_inv in H. destruct H as (d0 & log1 & Hb & H).
  destruct (RemoteField_as_dict_inv _ _ _ _ Hb) as [wd ->].
  apply lift_inv in H. destruct H as [H ->].
  exists wd. split; [assumption|].
  rewrite (for_each_ext _
             (fun kv d => dict_list_append "choices"
                            (choice_entry (py_str (fst kv)) (snd kv)) d))
    in H by (now intros [key value] s).
  rewrite (for_each_append _ _ _ _ []) in H by reflexivity.
  inversion H; subst. reflexivity.
Qed.

Ltac invert_bind H :=
  let a := fresh "d" in
  let l := fresh "log" in
  let Ha := fresh "Hsuper" in
  apply bind_inv in H; destruct H as (a & l & Ha & H).

Ltac invert_ret H :=
  first [ apply ret_inv in H; destruct H as [-> ->]
        | apply lift_inv in H; destruct H as [H ->] ].

Ltac invert_base :=
  match goal with
  | H : RemoteField_as_dict _ _ = (Ok ?d, _) |- _ =>
      let wd := fresh "widget_dict" in
      let E := fresh "E" in
      destruct (RemoteField_as_dict_inv _ _ _ _ H) as [wd E];
      subst d
  end.

(** Evaluates the reads and writes of a dictionary whose keys are known. *)
Ltac dict_compute H :=
  cbn [OD.setitem OD.getitem OD.update Py.assoc String.eqb Ascii.eqb
       Bool.eqb res_bind app fold_left fst snd base_dict Py.len] in H.

Ltac dict_compute_goal :=
  cbn [OD.setitem OD.getitem OD.update Py.assoc String.eqb Ascii.eqb
       Bool.eqb res_bind app fold_left fst snd base_dict Py.len].

(** The formatting step of [RemoteTimeField.as_dict], once [initial] is a
    date, a time or a datetime. *)
Ltac time_format_step H t :=
  dict_compute H;
  destruct (Nat.eqb _ 0), (isinstance_date t), (isinstance_time t),
    (isinstance_datetime t);
  dict_compute H;
  destruct (Py.item0 _) as [?fmt|?e]; try discriminate;
  cbn [res_bind] in H;
  destruct (py_strftime t _); try discriminate;
  now inversion H.

(** [RemoteTimeField.as_dict] only rewrites [initial] and
    [input_formats]. *)
Lemma RemoteTimeField_as_dict_keys (self : Remote) log d log' :
  RemoteTimeField_as_dict self log = (Ok d, log') ->
  (exists d0, RemoteField_as_dict self log = (Ok d0, log'))
  /\ OD.keys d = (base_keys ++ ["input_formats"])%list.
Proof.
  unfold RemoteTimeField_as_dict. intros H.
  invert_bind H. invert_ret H. split; [eauto|].
  invert_base. dict_compute H.
  destruct (Py.truthy _); [|now inversion H].
  destruct (Py.callable _).
  - destruct (Py.call _) as [r|e]; [|discriminate].
    dict_compute H.
    destruct r as [| | | | | | |t| |]; try (now inversion H).
    time_format_step H t.
  - dict_compute H.
    destruct (Py.or _ _) as [| | | | | | |t| |]; try (now inversion H).
    time_format_step H t.
Qed.

(** With no input formats on the field and a date, time or datetime for
    initial value, the adapter takes the date list for every instance of
    [datetime.date], [datetime.datetime] included, and the time list for a
    [datetime.time]; it renders the value with the first format. *)
Lemma RemoteTimeField_default_formats
  (self : Remote) log log' (d0 : OD.t) (t : Temporal)
  (fmt : string) (rest : list string) :
  RemoteField_as_dict self log = (Ok d0, log') ->
  Py.or (form_initial_data self) (initial (field self)) = VTemporal t ->
  input_formats (field self) = [] ->
  (if isinstance_date t then DATE_INPUT_FORMATS settings
   else TIME_INPUT_FORMATS settings) = fmt :: rest ->
  exists d,
    RemoteTimeField_as_dict self log = (Ok d, log')
    /\ OD.getitem "input_formats" d = Ok (VList (map VStr (fmt :: rest)))
    /\ OD.getitem "initial" d = Ok (VStr (strftime t fmt)).
Proof.
  intros Hb Hinit Hformats Hdefaults.
  destruct (RemoteField_as_dict_inv _ _ _ _ Hb) as [wd ->].
  unfold RemoteTimeField_as_dict, bind. rewrite Hb.
  unfold lift, base_dict. rewrite Hinit, Hformats.
  dict_compute_goal.
  destruct t; cbn [isinstance_date isinstance_time] in *;
    cbn [Py.truthy Py.callable map Py.len List.length Nat.eqb];
    dict_compute_goal; rewrite Hdefaults;
    cbn [map Py.item0 res_bind py_strftime]; dict_compute_goal;
    eexists; split; try reflexivity; split; reflexivity.
Qed.

(** *** The choice adapters *)

Lemma RemoteChoiceField_as_dict_run (self : Remote) log widget_dict log' :
  RemoteField_as_dict self log = (Ok (base_dict self widget_dict), log') ->
  RemoteChoiceField_as_dict self log
  = (Ok (base_dict self widget_dict
         ++ [("choices", VList (declared_entries (field self)))])%list,
     log').
Proof.
  intros Hb. unfold RemoteChoiceField_as_dict, bind, lift. rewrite Hb.
  rewrite (for_each_ext _
             (fun kv d => dict_list_append "choices"
                            (choice_entry (py_str (fst kv)) (snd kv)) d))
    by (now intros [key value] s).
  now rewrite (for_each_append _ _ _ _ []) by reflexivity.
Qed.

(** The loop of [RemoteCommaSeparatedField.as_dict] folds [add_entry] over
    the tokens. *)
Lemma comma_separated_loop (f : Field) (tokens : list string) :
  forall (d : OD.t) (items : list Value),
    OD.getitem "choices" d = Ok (VList items) ->
    for_each tokens
      (fun initial_value field_dict =>
         current <~ OD.getitem "choices" field_dict ;;
         match current with
         | VList items =>
             if negb (Py.contains (token_entry f initial_value) items)
             then dict_list_append "choices" (token_entry f initial_value)
                    field_dict
             else Ok field_dict
         | _ => Raise (TypeError "argument is not iterable")
         end) d
    = Ok (OD.setitem "choices"
            (VList (fold_left (add_entry f) tokens items)) d).
Proof.
  induction tokens as [|tok tokens IH]; intros d items Hd.
  - cbn [for_each fold_left]. f_equal. symmetry.
    now apply setitem_getitem_id.
  - cbn [for_each fold_left]. rewrite Hd. cbn [res_bind].
    unfold add_entry at 2.
    destruct (Py.contains (token_entry f tok) items); cbn [negb].
    + cbn [res_bind]. now apply IH.
    + unfold dict_list_append. rewrite Hd. cbn [res_bind].
      rewrite (IH _ (items ++ [token_entry f tok])%list)
        by apply getitem_setitem_same.
      now rewrite setitem_setitem_same.
Qed.

Lemma truthy_VStr (s : string) : Py.truthy (VStr s) = true <-> s <> "".
Proof.
  cbn. destruct s; cbn; split; intros H; congruence.
Qed.

(** With a string for [initial], the comma-separated adapter returns the
    base dictionary and, under [choices], the declared entries extended
    token by token. *)
Lemma RemoteCommaSeparatedField_as_dict_run
  (self : Remote) log widget_dict log' (s : string) :
  RemoteField_as_dict self log = (Ok (base_dict self widget_dict), log') ->
  Py.or (form_initial_data self) (initial (field self)) = VStr s ->
  RemoteCommaSeparatedField_as_dict self log
  = (Ok (base_dict self widget_dict
         ++ [("choices",
              VList (if Py.truthy (VStr s)
                     then fold_left (add_entry (field self))
                            (Py.split comma s)
                            (declared_entries (field self))
                     else declared_entries (field self)))])%list,
     log').
Proof.
  intros Hb Hs.
  unfold RemoteCommaSeparatedField_as_dict,
    RemoteMultipleChoiceField_as_dict, bind.
  rewrite (RemoteChoiceField_as_dict_run _ _ _ _ Hb).
  unfold lift, base_dict. rewrite Hs.
  cbn [OD.getitem Py.assoc String.eqb Ascii.eqb Bool.eqb res_bind app].
  destruct (Py.truthy (VStr s)); [|reflexivity].
  match goal with
  | |- (for_each ?xs _ ?d, _) = _ =>
      change (for_each xs _ d)
        with (for_each xs
                (fun initial_value field_dict =>
                   current <~ OD.getitem "choices" field_dict ;;
                   match current with
                   | VList items =>
                       if negb (Py.contains
                                  (token_entry (field self) initial_value)
                                  items)
                       then dict_list_append "choices"
                              (token_entry (field self) initial_value)
                              field_dict
                       else Ok field_dict
                   | _ => Raise (TypeError "argument is not iterable")
                   end) d)
  end.
  rewrite (comma_separated_loop _ _ _ (declared_entries (field self)))
    by reflexivity.
  reflexivity.
Qed.

Lemma RemoteCommaSeparatedField_as_dict_keys (self : Remote) log d log' :
  RemoteCommaSeparatedField_as_dict self log = (Ok d, log') ->
  OD.keys d = (base_keys ++ ["choices"])%list.
Proof.
  unfold RemoteCommaSeparatedField_as_dict,
    RemoteMultipleChoiceField_as_dict.
  intros H. invert_bind H. invert_ret H.
  destruct (RemoteChoiceField_as_dict_inv _ _ _ _ Hsuper)
    as (wd & Hb & ->).
  unfold base_dict in H.
  cbn [OD.getitem Py.assoc String.eqb Ascii.eqb Bool.eqb res_bind app]
    in H.
  destruct (Py.truthy _); [|now inversion H].
  destruct (Py.or _ _); try discriminate.
  refine (for_each_invariant
            (fun d => OD.keys d = (base_keys ++ ["choices"])%list)
            _ _ _ _ _ H eq_refl).
  intros tok d1 d2 Hbody Hkeys.
  destruct (OD.getitem "choices" d1) as [cur|e] eqn:Hcur;
    cbn [res_bind] in Hbody; [|discriminate].
  destruct cur; try discriminate.
  destruct (negb _); [|now inversion Hbody; subst].
  unfold dict_list_append in Hbody. rewrite Hcur in Hbody.
  cbn [res_bind] in Hbody. inversion Hbody; subst.
  erewrite keys_setitem_present; eauto.
Qed.

(** *** Keys along the inheritance chain *)

Ltac unfold_adapter H :=
  progress unfold
    RemoteCharField_as_dict, RemoteIntegerField_as_dict,
    RemoteFloatField_as_dict, RemoteDecimalField_as_dict,
    RemoteDateField_as_dict, RemoteDateTimeField_as_dict,
    RemoteRegexField_as_dict, RemoteEmailField_as_dict,
    RemoteFileField_as_dict, RemoteImageField_as_dict,
    RemoteURLField_as_dict, RemoteBooleanField_as_dict,
    RemoteNullBooleanField_as_dict, RemoteModelChoiceField_as_dict,
    RemoteTypedChoiceField_as_dict, RemoteMultipleChoiceField_as_dict,
    RemoteModelMultipleChoiceField_as_dict,
    RemoteTypedMultipleChoiceField_as_dict, RemoteComboField_as_dict,
    RemoteMultiValueField_as_dict, RemoteFilePathField_as_dict,
    RemoteSplitDateTimeField_as_dict, RemoteIPAddressField_as_dict,
    RemoteGenericIPAddressField_as_dict, RemoteSlugField_as_dict in H.

(** Reduces a successful run of an adapter to the dictionary it built. *)
Ltac invert_chain H :=
  lazymatch type of H with
  | RemoteField_as_dict _ _ = _ =>
      apply RemoteField_as_dict_inv in H; destruct H as [? ->]
  | RemoteChoiceField_as_dict _ _ = _ =>
      apply RemoteChoiceField_as_dict_inv in H; destruct H as (? & _ & ->)
  | bind _ _ _ = _ =>
      let Hs := fresh "Hsuper" in
      apply bind_inv in H; destruct H as (? & ? & Hs & H);
      invert_chain Hs; cbv beta zeta in H; invert_ret H
  | _ => unfold_adapter H; invert_chain H
  end.

Lemma extension_keys_parent (c p : RemoteClass) :
  parent c = Some p ->
  extension_keys c = (extension_keys p ++ own_keys c)%list.
Proof.
  destruct c; intros H; inversion H; subst; reflexivity.
Qed.

Lemma as_dict_keys_exact (c : RemoteClass) (self : Remote) log d log' :
  as_dict c self log = (Ok d, log') ->
  OD.keys d = (base_keys ++ extension_keys c)%list.
Proof.
  destruct c; cbn [as_dict]; intros H;
    try (unfold RemoteDateField_as_dict, RemoteDateTimeField_as_dict in H;
         apply RemoteTimeField_as_dict_keys in H; exact (proj2 H));
    try (apply RemoteCommaSeparatedField_as_dict_keys in H; exact H);
    invert_chain H; try reflexivity.
  - (* RemoteModelMultipleChoiceField branches on the initial value *)
    dict_compute H.
    destruct (Py.or _ _); now inversion H.
  - (* RemoteSplitDateTimeField reads two attributes *)
    destruct (field_getattr _ "input_date_formats" _);
      cbn [res_bind] in H; [|discriminate].
    destruct (field_getattr _ "input_time_formats" _);
      cbn [res_bind] in H; [|discriminate].
    now inversion H.
Qed.

Lemma as_dict_super (c p : RemoteClass) (self : Remote) log d log' :
  parent c = Some p ->
  as_dict c self log = (Ok d, log') ->
  exists d', as_dict p self log = (Ok d', log').
Proof.
  destruct c; intros Hp; inversion Hp; subst p; clear Hp;
    cbn [as_dict]; intros H;
    first
      [ now (eexists; exact H)
      | unfold RemoteCharField_as_dict, RemoteIntegerField_as_dict,
          RemoteDecimalField_as_dict, RemoteTimeField_as_dict,
          RemoteRegexField_as_dict, RemoteFileField_as_dict,
          RemoteChoiceField_as_dict, RemoteModelChoiceField_as_dict,
          RemoteTypedChoiceField_as_dict,
          RemoteCommaSeparatedField_as_dict,
          RemoteModelMultipleChoiceField_as_dict,
          RemoteTypedMultipleChoiceField_as_dict,
          RemoteComboField_as_dict, RemoteMultiValueField_as_dict,
          RemoteFilePathField_as_dict, RemoteSplitDateTimeField_as_dict
          in H;
        let Hs := fresh "Hsuper" in
        apply bind_inv in H; destruct H as (? & ? & Hs & H);
        cbv beta zeta in H; invert_ret H;
        eexists; exact Hs ].
Qed.

(** X4.  Apart from the time family, the comma-separated adapter and the
    split-datetime adapter (which reads two attributes the framework's
    field does not store), an adapter returns, with the same log, whenever
    the base adapter does: nothing in its own code can raise. *)
Lemma as_dict_returns (c : RemoteClass) (self : Remote) log d0 log' :
  RemoteField_as_dict self log = (Ok d0, log') ->
  own_code_can_raise c = false ->
  exists d, as_dict c self log = (Ok d, log').
Proof.
  intros Hb Hc.
  destruct (RemoteField_as_dict_inv _ _ _ _ Hb) as [wd ->].
  pose proof (RemoteChoiceField_as_dict_run _ _ _ _ Hb) as Hch.
  destruct c; try discriminate; cbn [as_dict];
    try (eexists; exact Hb); try (eexists; exact Hch);
    repeat
      (progress unfold
         RemoteCharField_as_dict, RemoteIntegerField_as_dict,
         RemoteFloatField_as_dict, RemoteDecimalField_as_dict,
         RemoteRegexField_as_dict, RemoteEmailField_as_dict,
         RemoteFileField_as_dict, RemoteImageField_as_dict,
         RemoteURLField_as_dict, RemoteBooleanField_as_dict,
         RemoteNullBooleanField_as_dict, RemoteModelChoiceField_as_dict,
         RemoteTypedChoiceField_as_dict, RemoteMultipleChoiceField_as_dict,
         RemoteModelMultipleChoiceField_as_dict,
         RemoteTypedMultipleChoiceField_as_dict, RemoteComboField_as_dict,
         RemoteMultiValueField_as_dict, RemoteFilePathField_as_dict,
         RemoteSplitDateTimeField_as_dict, RemoteIPAddressField_as_dict,
         RemoteGenericIPAddressField_as_dict, RemoteSlugField_as_dict,
         bind);
    rewrite ?Hch, ?Hb; unfold ret, lift; dict_compute_goal;
    try (eexists; reflexivity).
  destruct (Py.or _ _); eexists; reflexivity.
Qed.

(** C1.  Whenever an adapter returns a dictionary, its keys are the eight
    base keys followed by the extension keys of the adapter's category, in
    that order; and the adapter of the parent class returns a dictionary
    too, all of whose keys are keys of the subtype's dictionary. *)
Theorem as_dict_keys_monotone
  (c : RemoteClass) (self : Remote) (log log' : list LogRecord)
  (d : OD.t) :
  as_dict c self log = (Ok d, log') ->
  OD.keys d = (base_keys ++ extension_keys c)%list
  /\ (forall k, In k base_keys \/ In k (extension_keys c) ->
                In k (OD.keys d))
  /\ (forall p, parent c = Some p ->
                exists d', as_dict p self log = (Ok d', log')
                           /\ incl (OD.keys d') (OD.keys d)).
Proof.
  intros H. pose proof (as_dict_keys_exact _ _ _ _ _ H) as Hk.
  split; [exact Hk|]. split.
  - intros k Hin. rewrite Hk. apply in_or_app. exact Hin.
  - intros p Hp.
    destruct (as_dict_super _ _ _ _ _ _ Hp H) as [d' Hd'].
    exists d'. split; [exact Hd'|].
    rewrite Hk, (as_dict_keys_exact _ _ _ _ _ Hd'),
      (extension_keys_parent _ _ Hp), app_assoc.
    apply incl_appl, incl_refl.
Qed.

(** *** Widget adapter resolution *)

(** C2.  When the lookup of the adapter named after the widget's class
    raises, whatever the exception, the resolution returns the default
    adapter class and logs one warning carrying the attempted name and the
    text of the exception; [RemoteField.as_dict] then returns the base
    dictionary with the default adapter's dictionary under [widget]. *)
Theorem widget_adapter_fallback
  (self : Remote) (log : list LogRecord) (e : exn)
  (default : RemoteWidgetClass) (widget_dict : Value) :
  widgets_getattr ("Remote" ++ widget_class_name (widget (field self)))
  = Raise e ->
  widgets_getattr DEFAULT_REMOTE_WIDGET_CLASS_NAME = Ok default ->
  default (widget (field self)) (field_name self) = Ok widget_dict ->
  let warning :=
    {| level := WARNING;
       message := "Error serializing Remote"
                  ++ widget_class_name (widget (field self))
                  ++ ": " ++ exn_str e |} in
  resolve_remote_widget_class self log = (Ok default, (log ++ [warning])%list)
  /\ RemoteField_as_dict self log
     = (Ok (base_dict self widget_dict), (log ++ [warning])%list)
  /\ OD.getitem "widget" (base_dict self widget_dict) = Ok widget_dict.
Proof.
  intros Hlookup Hdefault Hwidget warning.
  assert (Hres : resolve_remote_widget_class self log
                 = (Ok default, (log ++ [warning])%list)).
  { unfold resolve_remote_widget_class, try_except, lift, bind,
      logger_warning.
    rewrite Hlookup, Hdefault. reflexivity. }
  split; [exact Hres|]. split; [|reflexivity].
  rewrite RemoteField_as_dict_unfold, Hres, Hwidget. reflexivity.
Qed.

(** *** Model-backed choice fields *)

Lemma getattr_pk_spec (v : Value) :
  (forall pk, has_pk v pk -> Py.getattr_default v "pk" v = pk)
  /\ (no_pk v -> Py.getattr_default v "pk" v = v).
Proof.
  split.
  - intros pk (id & attrs & -> & Hpk). cbn. now rewrite Hpk.
  - intros Hno. destruct v; try reflexivity.
    cbn. destruct (Py.assoc "pk" attrs) as [pk|] eqn:E; [|reflexivity].
    exfalso. apply (Hno pk). now exists id, attrs.
Qed.

(** C4.  Once the base adapter has returned, both model adapters return.
    [RemoteModelChoiceField] serializes under [initial] the primary key of
    the resolved initial value when that value exposes one, and the value
    itself otherwise; [RemoteModelMultipleChoiceField] does the same on
    each element when the resolved initial value is a list, and on the
    value itself when it is not. *)
Theorem model_choice_initial_is_pk
  (self : Remote) (log log' : list LogRecord) (d0 : OD.t) :
  RemoteField_as_dict self log = (Ok d0, log') ->
  let resolved := Py.or (form_initial_data self) (initial (field self)) in
  let reduced (v v' : Value) :=
    (forall pk, has_pk v pk -> v' = pk) /\ (no_pk v -> v' = v) in
  (exists d v,
      RemoteModelChoiceField_as_dict self log = (Ok d, log')
      /\ OD.getitem "initial" d = Ok v
      /\ reduced resolved v)
  /\ (exists d v,
         RemoteModelMultipleChoiceField_as_dict self log = (Ok d, log')
         /\ OD.getitem "initial" d = Ok v
         /\ (forall items, resolved = VList items ->
                           exists items', v = VList items'
                                          /\ Forall2 reduced items items')
         /\ ((forall items, resolved <> VList items) -> reduced resolved v)).
Proof.
  intros Hb resolved reduced.
  destruct (RemoteField_as_dict_inv _ _ _ _ Hb) as [wd ->].
  pose proof (RemoteChoiceField_as_dict_run _ _ _ _ Hb) as Hc.
  split.
  - unfold RemoteModelChoiceField_as_dict, bind. rewrite Hc.
    unfold lift, base_dict.
    cbn [OD.getitem OD.setitem Py.assoc String.eqb Ascii.eqb Bool.eqb
         res_bind app].
    do 2 eexists. split; [reflexivity|]. split; [reflexivity|].
    apply getattr_pk_spec.
  - unfold RemoteModelMultipleChoiceField_as_dict,
      RemoteMultipleChoiceField_as_dict, bind.
    rewrite Hc. unfold lift, base_dict.
    cbn [OD.getitem OD.setitem Py.assoc String.eqb Ascii.eqb Bool.eqb
         res_bind app].
    fold resolved.
    destruct resolved as [| | | |items| | | | |] eqn:E;
      cbn [OD.getitem OD.setitem Py.assoc String.eqb Ascii.eqb Bool.eqb
           res_bind app];
      do 2 eexists; (split; [reflexivity|]); (split; [reflexivity|]);
      (split; [| intros Hnl; try (now destruct (Hnl items));
                 apply getattr_pk_spec]);
      intros items' Heq; try discriminate.
    inversion Heq; subst items'. eexists; split; [reflexivity|].
    clear. induction items as [|i items IH]; cbn [map]; constructor; auto.
    apply getattr_pk_spec.
Qed.

(** *** The serialized choices of a comma-separated field *)

Lemma eq_choice_entry (a b a' b' : string) :
  Py.eq (choice_entry a b) (choice_entry a' b') = (a =? a') && (b =? b').
Proof.
  cbn. now rewrite andb_true_r.
Qed.

Lemma choice_entry_inj (a b a' b' : string) :
  choice_entry a b = choice_entry a' b' -> a = a' /\ b = b'.
Proof. intros H; inversion H; auto. Qed.

Lemma contains_entry_In (a b : string) (items : list Value) :
  Forall is_entry items ->
  Py.contains (choice_entry a b) items = true
  <-> In (choice_entry a b) items.
Proof.
  intros Hall. unfold Py.contains. rewrite existsb_exists. split.
  - intros (x & Hin & Heq).
    rewrite Forall_forall in Hall.
    destruct (Hall x Hin) as (a' & b' & ->).
    rewrite eq_choice_entry in Heq.
    apply andb_true_iff in Heq. destruct Heq as [Ha Hb].
    apply String.eqb_eq in Ha, Hb. now subst.
  - intros Hin. exists (choice_entry a b). split; [assumption|].
    rewrite eq_choice_entry. now rewrite !String.eqb_refl.
Qed.

Lemma declared_entries_are_entries (f : Field) :
  Forall is_entry (declared_entries f).
Proof.
  unfold declared_entries. apply Forall_forall. intros e Hin.
  apply in_map_iff in Hin. destruct Hin as (kv & <- & _).
  now exists (py_str (fst kv)), (snd kv).
Qed.

Lemma token_entry_is_entry (f : Field) (t : string) :
  is_entry (token_entry f t).
Proof. unfold token_entry. now eexists _, _. Qed.

(** The entries appended by the loop: one for each token whose entry is
    not in the list yet, and none twice. *)
Lemma fold_add_entry (f : Field) (tokens : list string) :
  forall items, Forall is_entry items ->
    exists added,
      fold_left (add_entry f) tokens items = (items ++ added)%list
      /\ NoDup added
      /\ (forall e, In e added <->
                    (exists t, In t tokens /\ e = token_entry f t)
                    /\ ~ In e items).
Proof.
  induction tokens as [|t tokens IH]; intros items Hall.
  - exists []. cbn. rewrite app_nil_r. split; [reflexivity|].
    split; [constructor|]. intros e. split; [tauto|].
    now intros [(t & [] & _) _].
  - cbn [fold_left]. unfold add_entry at 2.
    destruct (Py.contains (token_entry f t) items) eqn:Hc.
    + destruct (IH items Hall) as (added & Heq & Hnd & Hin).
      exists added. split; [exact Heq|]. split; [exact Hnd|].
      intros e. rewrite Hin. split.
      * intros [(t' & Ht' & He) Hni]. split; [|exact Hni].
        exists t'. split; [now right|exact He].
      * intros [(t' & [<-|Ht'] & He) Hni]; split; try exact Hni.
        -- exfalso. apply Hni. subst e.
           unfold token_entry in *. now apply contains_entry_In in Hc.
        -- now exists t'.
    + assert (Hni0 : ~ In (token_entry f t) items).
      { intros Hin0. unfold token_entry in *.
        apply contains_entry_In in Hin0; [congruence|assumption]. }
      destruct (IH (items ++ [token_entry f t])%list)
        as (added & Heq & Hnd & Hin).
      { apply Forall_app. split; [assumption|].
        constructor; [apply token_entry_is_entry|constructor]. }
      exists (token_entry f t :: added).
      split; [now rewrite Heq, <- app_assoc|].
      split.
      * constructor; [|exact Hnd].
        intros Hin'. apply Hin in Hin'. destruct Hin' as [_ Hni].
        apply Hni, in_or_app. right. now left.
      * intros e. cbn [In]. rewrite Hin. split.
        -- intros [<-|[(t' & Ht' & He) Hni]].
           ++ split; [|exact Hni0]. exists t. split; [now left|reflexivity].
           ++ split.
              ** exists t'. split; [now right|exact He].
              ** intros Hin'. apply Hni, in_or_app. now left.
        -- intros [(t' & [<-|Ht'] & He) Hni]; [now left|].
           destruct (String.string_dec t' t) as [->|Hne].
           ++ left. now subst e.
           ++ right. split; [now exists t'|].
              intros Hin'. apply in_app_or in Hin'.
              destruct Hin' as [Hin'|[Heq'|[]]]; [tauto|].
              subst e. unfold token_entry in Heq'.
              apply choice_entry_inj in Heq'. destruct Heq'; congruence.
Qed.

(** *** Splitting and joining *)

Lemma split_nonempty (sep : ascii) (s : string) : Py.split sep s <> [].
Proof.
  destruct s as [|c s]; cbn; [discriminate|].
  destruct (Ascii.eqb c sep); [discriminate|].
  destruct (Py.split sep s); discriminate.
Qed.

Lemma split_app_sep (sep : ascii) (p q : string) :
  Py.split sep (p ++ String sep q)
  = (Py.split sep p ++ Py.split sep q)%list.
Proof.
  induction p as [|c p IH]; cbn [append Py.split].
  - now rewrite Ascii.eqb_refl.
  - destruct (Ascii.eqb c sep); [now rewrite IH|].
    rewrite IH. pose proof (split_nonempty sep p) as Hne.
    destruct (Py.split sep p); [contradiction|reflexivity].
Qed.

Lemma join_split (s : string) : Py.join "," (Py.split comma s) = s.
Proof.
  induction s as [|c s IH]; [reflexivity|].
  cbn [Py.split]. destruct (Ascii.eqb c comma) eqn:E.
  - apply Ascii.eqb_eq in E. subst c.
    pose proof (split_nonempty comma s) as Hne.
    destruct (Py.split comma s) as [|tok toks]; [contradiction|].
    cbn [Py.join] in *. now rewrite IH.
  - pose proof (split_nonempty comma s) as Hne.
    destruct (Py.split comma s) as [|tok toks]; [contradiction|].
    destruct toks as [|tok' toks]; cbn [Py.join] in *; now rewrite <- IH.
Qed.

(** *** CommaSeparatedField *)

Lemma set_choices_id (f : Field) : set_choices (choices f) f = f.
Proof. now destruct f. Qed.

(** [prepare_value] appends to the choices, and only pairs made of a
    non-empty token, when validation is enabled. *)
Lemma fold_register_token (tokens : list string) :
  forall f, exists added,
    fold_left register_token tokens f = set_choices (choices f ++ added) f
    /\ (validate_choices f = false -> added = [])
    /\ Forall (fun kl => exists t, t <> "" /\ In t tokens
                                  /\ kl = (VStr t, t ++ NOT_VALID)) added.
Proof.
  induction tokens as [|t tokens IH]; intros f.
  - exists []. cbn [fold_left]. rewrite app_nil_r, set_choices_id. auto.
  - cbn [fold_left]. destruct (IH (register_token f t))
      as (added & Heq & Hoff & Hall).
    rewrite Heq. unfold register_token in *.
    destruct (validate_choices f) eqn:Hv; cbn [andb] in *.
    + destruct (Py.truthy (VStr t)) eqn:Ht; cbn [andb] in *.
      * destruct (negb (pair_in_choices t (choices f))).
        -- exists ((VStr t, t ++ NOT_VALID) :: added).
           cbn [choices set_choices]. rewrite <- app_assoc.
           split; [reflexivity|]. split; [discriminate|].
           constructor.
           ++ exists t. apply truthy_VStr in Ht. cbn [In]. auto.
           ++ eapply Forall_impl; [|exact Hall].
              intros kl (t' & ? & ? & ?). exists t'. cbn [In]. auto.
        -- exists added. split; [reflexivity|]. split; [discriminate|].
           eapply Forall_impl; [|exact Hall].
           intros kl (t' & ? & ? & ?). exists t'. cbn [In]. auto.
      * exists added. split; [reflexivity|]. split; [discriminate|].
        eapply Forall_impl; [|exact Hall].
        intros kl (t' & ? & ? & ?). exists t'. cbn [In]. auto.
    + exists added. split; [reflexivity|]. split; [auto|].
      eapply Forall_impl; [|exact Hall].
      intros kl (t' & ? & ? & ?). exists t'. cbn [In]. auto.
Qed.

Lemma prepare_value_str (f : Field) (s : string) :
  exists added,
    CommaSeparatedField_prepare_value f (VStr s)
    = (set_choices (choices f ++ added) f,
       VList (map VStr (Py.split comma s)))
    /\ (validate_choices f = false -> added = [])
    /\ Forall (fun kl => exists t, t <> "" /\ In t (Py.split comma s)
                                  /\ kl = (VStr t, t ++ NOT_VALID)) added.
Proof.
  destruct (fold_register_token (Py.split comma s)
              (set_choices (choices f) f)) as (added & Heq & Hoff & Hall).
  exists added. unfold CommaSeparatedField_prepare_value.
  rewrite Heq, set_choices_id. rewrite set_choices_id in Hoff. auto.
Qed.

(** C6, as amended.  With [validate_choices=False], [prepare_value] on a
    string returns the list of its tokens and registers nothing: the field
    and its choices are left as they were; and [valid_value] accepts every
    value. *)
Theorem prepare_value_validation_disabled (f : Field) (s : string) :
  validate_choices f = false ->
  CommaSeparatedField_prepare_value f (VStr s)
  = (f, VList (map VStr (Py.split comma s)))
  /\ choices (fst (CommaSeparatedField_prepare_value f (VStr s)))
     = choices f
  /\ (forall v, CommaSeparatedField_valid_value f v = true).
Proof.
  intros Hv.
  destruct (prepare_value_str f s) as (added & Heq & Hoff & _).
  rewrite (Hoff Hv), app_nil_r, set_choices_id in Heq.
  rewrite Heq. split; [reflexivity|]. split; [reflexivity|].
  intros v. unfold CommaSeparatedField_valid_value. now rewrite Hv.
Qed.

(** C10.  On a string, [prepare_value] returns every token of the split,
    the empty ones included (a leading, a trailing or a doubled comma gives
    one), and the choices it appends all have a non-empty token for key: no
    choice with the empty string for key is registered. *)
Theorem prepare_value_empty_tokens (f : Field) (s : string) :
  exists added,
    CommaSeparatedField_prepare_value f (VStr s)
    = (set_choices (choices f ++ added) f,
       VList (map VStr (Py.split comma s)))
    /\ (forall k l, In (k, l) added ->
                    exists t, t <> "" /\ In t (Py.split comma s)
                              /\ k = VStr t)
    /\ (forall l, ~ In (VStr "", l) added)
    /\ (forall p q, s = "," ++ q \/ s = p ++ "," \/ s = p ++ ",," ++ q ->
                    In (VStr "") (map VStr (Py.split comma s))).
Proof.
  destruct (prepare_value_str f s) as (added & Heq & _ & Hall).
  exists added. split; [exact Heq|].
  rewrite Forall_forall in Hall.
  split; [|split].
  - intros k l Hin. destruct (Hall _ Hin) as (t & Hne & Ht & E).
    inversion E; subst. now exists t.
  - intros l Hin. destruct (Hall _ Hin) as (t & Hne & _ & E).
    inversion E; subst. now apply Hne.
  - intros p q H. apply in_map.
    destruct H as [-> | [-> | ->]].
    + cbn. now left.
    + change (p ++ ",") with (p ++ String comma "").
      rewrite split_app_sep. apply in_or_app. right. cbn. now left.
    + change (p ++ ",," ++ q) with (p ++ String comma (String comma q)).
      rewrite split_app_sep. apply in_or_app. right. cbn. now left.
Qed.

Lemma validate_valid_tokens (f : Field) (tokens : list string) :
  (forall t, In t tokens -> CommaSeparatedField_valid_value f t = true) ->
  for_each tokens
    (fun val _ =>
       if negb (CommaSeparatedField_valid_value f val)
       then Raise (ValidationError ["invalid_choice"])
       else Ok tt) tt = Ok tt.
Proof.
  induction tokens as [|t tokens IH]; intros Hvalid; [reflexivity|].
  cbn [for_each]. rewrite (Hvalid t) by now left.
  cbn. apply IH. intros t' Ht'. apply Hvalid. now right.
Qed.

Lemma map_py_str_VStr (tokens : list string) :
  map py_str (map VStr tokens) = tokens.
Proof.
  induction tokens as [|t tokens IH]; cbn; [reflexivity|]. now rewrite IH.
Qed.

(** Cleaning a non-empty list of valid tokens gives them joined. *)
Lemma clean_valid_tokens (f : Field) (tokens : list string) :
  tokens <> [] ->
  (forall t, In t tokens -> CommaSeparatedField_valid_value f t = true) ->
  Forall (fun v => v tokens = None) (validators f) ->
  CommaSeparatedField_clean f (VList (map VStr tokens))
  = Ok (VStr (Py.join "," tokens)).
Proof.
  intros Hne Hvalid Hvals.
  unfold CommaSeparatedField_clean, MultipleChoiceField_clean,
    MultipleChoiceField_to_python.
  destruct tokens as [|t0 tokens0] eqn:Et; [contradiction|].
  rewrite <- Et in *.
  assert (Htruthy : Py.truthy (VList (map VStr tokens)) = true)
    by (rewrite Et; reflexivity).
  rewrite Htruthy. cbn [negb res_bind]. rewrite map_py_str_VStr.
  unfold MultipleChoiceField_validate.
  assert (Hnil : match tokens with [] => true | _ => false end = false)
    by (rewrite Et; reflexivity).
  rewrite Hnil, andb_false_r.
  rewrite (validate_valid_tokens _ _ Hvalid). cbn [res_bind].
  unfold Field_run_validators.
  assert (Herr : flat_map (fun v => match v tokens with
                                    | Some code => [code]
                                    | None => []
                                    end) (validators f) = []).
  { induction Hvals as [|v vs Hv _ IH]; cbn [flat_map]; [reflexivity|].
    now rewrite Hv, IH. }
  rewrite Herr. rewrite Et at 1. reflexivity.
Qed.

Lemma valid_value_after_registration
  (f : Field) (added : list (Value * string)) (t : string) :
  ChoiceField_valid_value f t = true ->
  CommaSeparatedField_valid_value (set_choices (choices f ++ added) f) t
  = true.
Proof.
  intros Hvalid. unfold CommaSeparatedField_valid_value.
  destruct (validate_choices _); [|reflexivity].
  unfold ChoiceField_valid_value in *. cbn [choices set_choices].
  rewrite existsb_app, Hvalid. reflexivity.
Qed.

(** C5.  When "a", "b" and "c" are valid values of the declared choices
    (and the field's validators, none by default, accept the list),
    [prepare_value("a,b,c")] followed by [clean] on the field it leaves
    returns the string "a,b,c". *)
Theorem clean_prepare_value_round_trip (f : Field) :
  ChoiceField_valid_value f "a" = true ->
  ChoiceField_valid_value f "b" = true ->
  ChoiceField_valid_value f "c" = true ->
  Forall (fun v => v ["a"; "b"; "c"] = None) (validators f) ->
  let '(f', prepared) := CommaSeparatedField_prepare_value f (VStr "a,b,c") in
  prepared = VList [VStr "a"; VStr "b"; VStr "c"]
  /\ CommaSeparatedField_clean f' prepared = Ok (VStr "a,b,c").
Proof.
  intros Ha Hb Hc Hvals.
  destruct (prepare_value_str f "a,b,c") as (added & Heq & _ & _).
  rewrite Heq. split; [reflexivity|].
  change (Py.split comma "a,b,c") with ["a"; "b"; "c"].
  rewrite clean_valid_tokens; [reflexivity|discriminate| |exact Hvals].
  intros t [<-|[<-|[<-|[]]]]; now apply valid_value_after_registration.
Qed.

(** C9.  A value returned by [CommaSeparatedField.clean] is the list
    returned by the inherited [clean] joined with ",": a string, not a
    list. *)
Theorem clean_returns_joined_string (f : Field) (value r : Value) :
  CommaSeparatedField_clean f value = Ok r ->
  exists l,
    MultipleChoiceField_clean CommaSeparatedField_valid_value f value = Ok l
    /\ r = VStr (Py.join "," l)
    /\ Py.type_is_list r = false.
Proof.
  unfold CommaSeparatedField_clean. intros H.
  destruct (MultipleChoiceField_clean _ f value) as [l|e];
    cbn [res_bind] in H; [|discriminate].
  inversion H; subst. now exists l.
Qed.

(** ** Further properties of the adapters *)

Ltac unfold_adapters :=
  repeat
    (progress unfold
       RemoteCharField_as_dict, RemoteIntegerField_as_dict,
       RemoteFloatField_as_dict, RemoteDecimalField_as_dict,
       RemoteTimeField_as_dict, RemoteDateField_as_dict,
       RemoteDateTimeField_as_dict, RemoteRegexField_as_dict,
       RemoteEmailField_as_dict, RemoteFileField_as_dict,
       RemoteImageField_as_dict, RemoteURLField_as_dict,
       RemoteBooleanField_as_dict, RemoteNullBooleanField_as_dict,
       RemoteChoiceField_as_dict, RemoteModelChoiceField_as_dict,
       RemoteTypedChoiceField_as_dict, RemoteMultipleChoiceField_as_dict,
       RemoteCommaSeparatedField_as_dict,
       RemoteModelMultipleChoiceField_as_dict,
       RemoteTypedMultipleChoiceField_as_dict, RemoteComboField_as_dict,
       RemoteMultiValueField_as_dict, RemoteFilePathField_as_dict,
       RemoteSplitDateTimeField_as_dict, RemoteIPAddressField_as_dict,
       RemoteGenericIPAddressField_as_dict, RemoteSlugField_as_dict).

(** *** The log *)

Lemma snd_bind_neutral {A B} (m : M A) (k : A -> M B) log :
  (forall a l, snd (k a l) = l) ->
  snd (bind m k log) = snd (m log).
Proof.
  intros Hk. unfold bind. destruct (m log) as [[a|e] l]; cbn; auto.
Qed.

Lemma resolve_log (self : Remote) log :
  snd (resolve_remote_widget_class self log)
  = match widgets_getattr
            ("Remote" ++ widget_class_name (widget (field self))) with
    | Ok _ => log
    | Raise e => (log ++ [lookup_warning self e])%list
    end.
Proof.
  unfold resolve_remote_widget_class, try_except, lift, bind,
    logger_warning.
  destruct (widgets_getattr (_ ++ _)); [reflexivity|].
  cbn. destruct (widgets_getattr DEFAULT_REMOTE_WIDGET_CLASS_NAME);
    reflexivity.
Qed.

Lemma base_adapter_log (self : Remote) log :
  snd (RemoteField_as_dict self log)
  = snd (resolve_remote_widget_class self log).
Proof.
  rewrite RemoteField_as_dict_unfold.
  destruct (resolve_remote_widget_class self log) as [[cls|e] l];
    [|reflexivity].
  destruct (cls _ _); reflexivity.
Qed.

(** X1.  Whatever the adapter class and whether [as_dict] returns or
    raises, the log it leaves is the log it found when the lookup of the
    widget adapter succeeded, and that log followed by the single warning
    of the lookup when it raised: no other step logs, and no entry is
    dropped. *)
Theorem as_dict_log (c : RemoteClass) (self : Remote)
  (log : list LogRecord) :
  snd (as_dict c self log)
  = match widgets_getattr
            ("Remote" ++ widget_class_name (widget (field self))) with
    | Ok _ => log
    | Raise e => (log ++ [lookup_warning self e])%list
    end.
Proof.
  rewrite <- resolve_log, <- base_adapter_log.
  destruct c; cbn [as_dict]; unfold_adapters;
    repeat (rewrite snd_bind_neutral by (intros; reflexivity));
    reflexivity.
Qed.

(** *** Exceptions of the base adapter *)

(** X2.  An exception raised while [RemoteField.as_dict] runs (the default
    adapter missing from the widgets module after a failed lookup, or the
    widget adapter raising) is raised unchanged, with the same log, by the
    [as_dict] of every adapter class: no subclass catches it. *)
Theorem base_exception_propagates
  (c : RemoteClass) (self : Remote) (log log' : list LogRecord) (e : exn) :
  RemoteField_as_dict self log = (Raise e, log') ->
  as_dict c self log = (Raise e, log').
Proof.
  intros Hb.
  destruct c; cbn [as_dict]; unfold_adapters; unfold bind;
    rewrite Hb; reflexivity.
Qed.

(** *** What a subtype leaves of its parent's dictionary *)

Lemma frame_refl (written : list string) (d : OD.t) : frame written d d.
Proof. now intros k _. Qed.

Lemma frame_setitem (written : list string) (d' d : OD.t)
  (k' : string) (x : Value) :
  In k' written -> frame written d' d ->
  frame written d' (OD.setitem k' x d).
Proof.
  intros Hin Hf k Hk. rewrite getitem_setitem_other; [now apply Hf|].
  intros ->. contradiction.
Qed.

Lemma frame_dict_list_append (written : list string) (d' d1 d2 : OD.t)
  (key : string) (x : Value) :
  In key written -> dict_list_append key x d1 = Ok d2 ->
  frame written d' d1 -> frame written d' d2.
Proof.
  unfold dict_list_append. intros Hin H Hf.
  destruct (OD.getitem key d1) as [l|e]; cbn [res_bind] in H;
    [|discriminate].
  destruct l; try discriminate. inversion H; subst.
  now apply frame_setitem.
Qed.

(** Splits a successful run of straight-line dictionary code into its
    steps. *)
Ltac crunch H :=
  lazymatch type of H with
  | res_bind ?r _ = Ok _ =>
      let E := fresh "E" in
      destruct r eqn:E; cbn [res_bind] in H;
      [crunch E; crunch H | discriminate]
  | (if ?b then _ else _) = Ok _ => destruct b; crunch H
  | Ok _ = Ok _ => inversion H; subst; clear H
  | Raise _ = Ok _ => discriminate
  | match ?x with _ => _ end = Ok _ =>
      destruct x; try discriminate; crunch H
  | _ => idtac
  end.

Ltac solve_frame :=
  repeat first
    [ apply frame_refl
    | apply frame_setitem; [cbn; tauto|]
    | match goal with
      | |- context [if ?b then _ else _] => destruct b
      end ].

Lemma frame_comma_separated (self : Remote) (d' d : OD.t) (s : string) :
  for_each (Py.split comma s)
    (fun initial_value field_dict =>
       let display_value :=
         if validate_choices (field self)
         then initial_value ++ NOT_VALID
         else initial_value in
       let initial_option := choice_entry initial_value display_value in
       current <~ OD.getitem "choices" field_dict ;;
       match current with
       | VList items =>
           if negb (Py.contains initial_option items)
           then dict_list_append "choices" initial_option field_dict
           else Ok field_dict
       | _ => Raise (TypeError "argument is not iterable")
       end) d' = Ok d ->
  frame ["choices"] d' d.
Proof.
  intros H.
  refine (for_each_invariant (frame ["choices"] d') _ _ _ _ _ H
            (frame_refl _ _)).
  intros tok d1 d2 Hbody Hf. cbv zeta in Hbody.
  destruct (OD.getitem "choices" d1) as [cur|e];
    cbn [res_bind] in Hbody; [|discriminate].
  destruct cur; try discriminate.
  destruct (negb _); [|now inversion Hbody; subst].
  eapply frame_dict_list_append; eauto. cbn; tauto.
Qed.

(** X3.  A subtype adapter changes its parent's dictionary only under the
    keys it assigns itself: under every other key its dictionary holds
    exactly what the parent adapter's dictionary holds (the same value, or
    nothing where the parent has no such key). *)
Theorem as_dict_frame
  (c p : RemoteClass) (self : Remote) (log log' : list LogRecord)
  (d d' : OD.t) :
  parent c = Some p ->
  as_dict c self log = (Ok d, log') ->
  as_dict p self log = (Ok d', log') ->
  forall k, ~ In k (written_keys c) -> OD.getitem k d = OD.getitem k d'.
Proof.
  intros Hp Hc Hd'. change (frame (written_keys c) d' d).
  destruct c; inversion Hp; subst p; clear Hp;
    cbn [as_dict] in Hc, Hd';
    try (unfold RemoteFloatField_as_dict, RemoteDateField_as_dict,
           RemoteDateTimeField_as_dict, RemoteEmailField_as_dict,
           RemoteImageField_as_dict, RemoteURLField_as_dict,
           RemoteBooleanField_as_dict, RemoteNullBooleanField_as_dict,
           RemoteMultipleChoiceField_as_dict, RemoteIPAddressField_as_dict,
           RemoteGenericIPAddressField_as_dict, RemoteSlugField_as_dict
           in Hc;
         rewrite Hd' in Hc; inversion Hc; subst; apply frame_refl);
    unfold RemoteCharField_as_dict, RemoteIntegerField_as_dict,
      RemoteDecimalField_as_dict, RemoteTimeField_as_dict,
      RemoteRegexField_as_dict, RemoteFileField_as_dict,
      RemoteChoiceField_as_dict, RemoteModelChoiceField_as_dict,
      RemoteTypedChoiceField_as_dict, RemoteCommaSeparatedField_as_dict,
      RemoteModelMultipleChoiceField_as_dict,
      RemoteTypedMultipleChoiceField_as_dict, RemoteComboField_as_dict,
      RemoteMultiValueField_as_dict, RemoteFilePathField_as_dict,
      RemoteSplitDateTimeField_as_dict in Hc;
    unfold bind in Hc; rewrite Hd' in Hc; cbv beta zeta in Hc;
    unfold ret, lift in Hc; apply (f_equal fst) in Hc; cbn [fst] in Hc;
    cbn [OD.update fold_left fst snd] in Hc.
  all: try (crunch Hc; now solve_frame).
  - (* RemoteChoiceField *)
    refine (for_each_invariant (frame (written_keys RemoteChoiceField) d')
              _ _ _ _ _ Hc _).
    + intros [key value] d1 d2 Hbody Hf.
      eapply frame_dict_list_append; eauto. cbn; tauto.
    + solve_frame.
  - (* RemoteCommaSeparatedField *)
    destruct (OD.getitem "initial" d') as [initial0|e];
      cbn [res_bind] in Hc; [|discriminate].
    destruct (Py.truthy initial0); [|inversion Hc; apply frame_refl].
    destruct initial0; try discriminate.
    now apply (frame_comma_separated self d' d s).
Qed.

(** *** The time family *)

(** Brings a goal about a time-family adapter down to the code of
    [RemoteTimeField.as_dict] run on the base dictionary. *)
Ltac time_family_start c Hfam Hb :=
  destruct c; try discriminate Hfam; cbn [as_dict];
  unfold RemoteDateField_as_dict, RemoteDateTimeField_as_dict,
    RemoteTimeField_as_dict, bind;
  rewrite Hb; unfold lift, base_dict.

Ltac time_compute :=
  cbn [OD.setitem OD.getitem Py.assoc String.eqb Ascii.eqb Bool.eqb
       res_bind Py.truthy Py.callable Py.call Py.len Py.item0 map
       List.length Nat.eqb py_strftime isinstance_date isinstance_time
       isinstance_datetime negb].

(** X5.  When the field declares input formats, a time-family adapter
    whose initial value is a date, a time or a datetime keeps the field's
    own list under [input_formats] and renders the value with its first
    entry, whatever the settings hold. *)
Theorem time_family_explicit_formats
  (c : RemoteClass) (self : Remote) (log log' : list LogRecord)
  (d0 : OD.t) (t : Temporal) (fmt : string) (rest : list string) :
  time_family c = true ->
  RemoteField_as_dict self log = (Ok d0, log') ->
  Py.or (form_initial_data self) (initial (field self)) = VTemporal t ->
  input_formats (field self) = fmt :: rest ->
  exists d,
    as_dict c self log = (Ok d, log')
    /\ OD.getitem "input_formats" d = Ok (VList (map VStr (fmt :: rest)))
    /\ OD.getitem "initial" d = Ok (VStr (strftime t fmt)).
Proof.
  intros Hfam Hb Hinit Hformats.
  destruct (RemoteField_as_dict_inv _ _ _ _ Hb) as [wd ->].
  time_family_start c Hfam Hb; rewrite Hinit, Hformats; time_compute;
    eexists; split; try reflexivity; split; reflexivity.
Qed.

(** X6.  With no input formats on the field, a time-family adapter takes
    [settings.DATE_INPUT_FORMATS] for a date-only initial value and
    [settings.TIME_INPUT_FORMATS] for a time-only one, puts that list under
    [input_formats] and renders the value with its first entry. *)
Theorem time_family_default_formats
  (c : RemoteClass) (self : Remote) (log log' : list LogRecord)
  (d0 : OD.t) (t : Temporal) (fmt : string) (rest : list string) :
  time_family c = true ->
  RemoteField_as_dict self log = (Ok d0, log') ->
  Py.or (form_initial_data self) (initial (field self)) = VTemporal t ->
  input_formats (field self) = [] ->
  isinstance_datetime t = false ->
  match t with
  | TTime _ _ _ => TIME_INPUT_FORMATS settings
  | _ => DATE_INPUT_FORMATS settings
  end = fmt :: rest ->
  exists d,
    as_dict c self log = (Ok d, log')
    /\ OD.getitem "input_formats" d = Ok (VList (map VStr (fmt :: rest)))
    /\ OD.getitem "initial" d = Ok (VStr (strftime t fmt)).
Proof.
  intros Hfam Hb Hinit Hformats Hdt Hdefaults.
  assert (Hrun : exists d,
             RemoteTimeField_as_dict self log = (Ok d, log')
             /\ OD.getitem "input_formats" d
                = Ok (VList (map VStr (fmt :: rest)))
             /\ OD.getitem "initial" d = Ok (VStr (strftime t fmt))).
  { apply (RemoteTimeField_default_formats self log log' d0 t fmt rest);
      auto.
    destruct t; cbn in *; auto. }
  destruct c; try discriminate Hfam; exact Hrun.
Qed.

(** X7.  A callable initial value is called once and replaced by what it
    returns: a returned date, time or datetime is rendered with the first
    input format, any other returned value, a falsy one included, is
    serialized as it is. *)
Theorem time_family_callable_initial
  (c : RemoteClass) (self : Remote) (log log' : list LogRecord)
  (d0 : OD.t) (id : nat) (r : Value) :
  time_family c = true ->
  RemoteField_as_dict self log = (Ok d0, log') ->
  Py.or (form_initial_data self) (initial (field self)) = VCallable id r ->
  ((forall t, r <> VTemporal t) ->
   exists d,
     as_dict c self log = (Ok d, log')
     /\ OD.getitem "initial" d = Ok r
     /\ OD.getitem "input_formats" d
        = Ok (VList (map VStr (input_formats (field self)))))
  /\ (forall t fmt rest,
        r = VTemporal t -> input_formats (field self) = fmt :: rest ->
        exists d,
          as_dict c self log = (Ok d, log')
          /\ OD.getitem "initial" d = Ok (VStr (strftime t fmt))).
Proof.
  intros Hfam Hb Hinit.
  destruct (RemoteField_as_dict_inv _ _ _ _ Hb) as [wd ->].
  split.
  - intros Hnt.
    time_family_start c Hfam Hb; rewrite Hinit; time_compute;
      (destruct r as [| | | | | | |t| |];
       [| | | | | | |now destruct (Hnt t)| |]);
      eexists; split; try reflexivity; split; reflexivity.
  - intros t fmt rest -> Hformats.
    time_family_start c Hfam Hb; rewrite Hinit, Hformats; time_compute;
      eexists; split; reflexivity.
Qed.

(** X8.  With no input formats on the field and an empty default list in
    the settings (the date list for a date-only initial value, the time
    list for a time-only one), a time-family adapter raises [IndexError]:
    it indexes the empty list. *)
Theorem time_family_no_format_raises
  (c : RemoteClass) (self : Remote) (log log' : list LogRecord)
  (d0 : OD.t) (t : Temporal) :
  time_family c = true ->
  RemoteField_as_dict self log = (Ok d0, log') ->
  Py.or (form_initial_data self) (initial (field self)) = VTemporal t ->
  input_formats (field self) = [] ->
  isinstance_datetime t = false ->
  match t with
  | TTime _ _ _ => TIME_INPUT_FORMATS settings
  | _ => DATE_INPUT_FORMATS settings
  end = [] ->
  as_dict c self log = (Raise (IndexError "list index out of range"), log').
Proof.
  intros Hfam Hb Hinit Hformats Hdt Hdefaults.
  destruct (RemoteField_as_dict_inv _ _ _ _ Hb) as [wd ->].
  time_family_start c Hfam Hb; rewrite Hinit, Hformats; time_compute;
    destruct t; cbn [isinstance_date isinstance_time] in *;
    time_compute; rewrite Hdefaults; reflexivity.
Qed.

(** X9.  An initial value that is neither callable nor a date, time or
    datetime (a string, a number, [None]) goes through a time-family
    adapter unchanged, and [input_formats] holds the field's own list. *)
Theorem time_family_other_initial
  (c : RemoteClass) (self : Remote) (log log' : list LogRecord)
  (d0 : OD.t) :
  time_family c = true ->
  RemoteField_as_dict self log = (Ok d0, log') ->
  let resolved := Py.or (form_initial_data self) (initial (field self)) in
  Py.callable resolved = false ->
  (forall t, resolved <> VTemporal t) ->
  exists d,
    as_dict c self log = (Ok d, log')
    /\ OD.getitem "initial" d = Ok resolved
    /\ OD.getitem "input_formats" d
       = Ok (VList (map VStr (input_formats (field self)))).
Proof.
  intros Hfam Hb resolved Hcall Hnt.
  destruct (RemoteField_as_dict_inv _ _ _ _ Hb) as [wd ->].
  time_family_start c Hfam Hb; fold resolved;
    cbn [OD.setitem OD.getitem Py.assoc String.eqb Ascii.eqb Bool.eqb
         res_bind];
    rewrite Hcall;
    (destruct (Py.truthy resolved);
     [|eexists; split; try reflexivity; split; reflexivity]);
    cbn [OD.setitem OD.getitem Py.assoc String.eqb Ascii.eqb Bool.eqb
         res_bind];
    (destruct resolved as [| | | | | | |t| |];
     [| | | | | | |now destruct (Hnt t)| |]);
    eexists; split; try reflexivity; split; reflexivity.
Qed.

(** *** The choice family *)

(** X10.  Every adapter below [RemoteChoiceField] other than the
    comma-separated one serializes under [choices] exactly one entry per
    declared choice, in the declared order: the key as a string under
    [value] and the label under [display]. *)
Theorem choice_family_serializes_declared
  (c : RemoteClass) (self : Remote) (log log' : list LogRecord)
  (d : OD.t) :
  keeps_declared_choices c = true ->
  as_dict c self log = (Ok d, log') ->
  exists entries,
    OD.getitem "choices" d = Ok (VList entries)
    /\ List.length entries = List.length (choices (field self))
    /\ forall i key display,
         nth_error (choices (field self)) i = Some (key, display) ->
         nth_error entries i
         = Some (VDict [("value", VStr (py_str key));
                        ("display", VStr display)]).
Proof.
  intros Hc H. exists (declared_entries (field self)).
  split; [|split].
  - destruct c; try discriminate Hc; cbn [as_dict] in H;
      invert_chain H; try reflexivity.
    dict_compute H. destruct (Py.or _ _); now inversion H.
  - unfold declared_entries. apply length_map.
  - intros i key display Hnth. unfold declared_entries.
    rewrite nth_error_map, Hnth. reflexivity.
Qed.


(** ** Further properties of [CommaSeparatedField] *)

Lemma append_length (a b : string) :
  String.length (a ++ b) = (String.length a + String.length b)%nat.
Proof.
  induction a as [|c a IH]; cbn; [reflexivity|]. now rewrite IH.
Qed.

Lemma not_valid_differs (v : string) : (v =? v ++ NOT_VALID) = false.
Proof.
  apply String.eqb_neq. intros H.
  apply (f_equal String.length) in H. rewrite append_length in H.
  cbn in H. lia.
Qed.

(** The pairs [prepare_value] appends never answer its own test
    [(v, v) in self.choices]. *)
Lemma pair_in_choices_registered
  (v : string) (cs : list (Value * string)) (tokens : list string) :
  pair_in_choices v
    (cs ++ map (fun t => (VStr t, t ++ NOT_VALID)) tokens)
  = pair_in_choices v cs.
Proof.
  unfold pair_in_choices. rewrite existsb_app.
  assert (Hno : existsb
                  (fun kv => Py.eq (VStr v) (fst kv) && (v =? snd kv))
                  (map (fun t => (VStr t, t ++ NOT_VALID)) tokens) = false).
  { induction tokens as [|t tokens IH]; [reflexivity|].
    cbn [map existsb]. rewrite IH, orb_false_r. cbn [fst snd Py.eq].
    destruct (v =? t) eqn:E; [|reflexivity].
    apply String.eqb_eq in E. subst t. apply not_valid_differs. }
  now rewrite Hno, orb_false_r.
Qed.

Lemma set_choices_twice (c c' : list (Value * string)) (f : Field) :
  set_choices c (set_choices c' f) = set_choices c f.
Proof. reflexivity. Qed.

(** Appending registered pairs does not change which tokens are still to
    be registered. *)
Lemma registered_choices_stable
  (f : Field) (extra tokens : list string) :
  registered_choices
    (set_choices
       (choices f ++ map (fun t => (VStr t, t ++ NOT_VALID)) extra) f)
    tokens
  = registered_choices f tokens.
Proof.
  unfold registered_choices. f_equal. apply filter_ext.
  intros v. unfold unregistered. cbn [choices set_choices].
  now rewrite pair_in_choices_registered.
Qed.

Lemma fold_register_token_exact (tokens : list string) :
  forall f, validate_choices f = true ->
    fold_left register_token tokens f
    = set_choices (choices f ++ registered_choices f tokens) f.
Proof.
  induction tokens as [|t tokens IH]; intros f Hv.
  - cbn. now rewrite app_nil_r, set_choices_id.
  - cbn [fold_left]. unfold register_token at 2. rewrite Hv. cbn [andb].
    change (Py.truthy (VStr t) && negb (pair_in_choices t (choices f)))
      with (unregistered f t).
    assert (Hcons : registered_choices f (t :: tokens)
                    = if unregistered f t
                      then (VStr t, t ++ NOT_VALID)
                           :: registered_choices f tokens
                      else registered_choices f tokens).
    { unfold registered_choices. cbn [filter].
      destruct (unregistered f t); reflexivity. }
    rewrite Hcons. destruct (unregistered f t).
    + rewrite IH by exact Hv.
      pose proof (registered_choices_stable f [t] tokens) as Hs.
      cbn [map] in Hs. rewrite Hs, set_choices_twice.
      cbn [choices set_choices]. now rewrite <- app_assoc.
    + now rewrite IH.
Qed.

(** X12.  On a string, with validation enabled, [prepare_value] appends to
    the choices, in the order of the tokens and once per occurrence, the
    pair (token, token + " (Not valid)") for every non-empty token for
    which the pair (token, token) is not a declared choice; it appends
    nothing else and keeps the declared choices in front. *)
Theorem prepare_value_appends_unknown_tokens (f : Field) (s : string) :
  validate_choices f = true ->
  CommaSeparatedField_prepare_value f (VStr s)
  = (set_choices
       (choices f
        ++ map (fun v => (VStr v, v ++ " (Not valid)"))
             (filter
                (fun v => negb (v =? "")
                          && negb (pair_in_choices v (choices f)))
                (Py.split comma s)))
       f,
     VList (map VStr (Py.split comma s))).
Proof.
  intros Hv. unfold CommaSeparatedField_prepare_value.
  rewrite set_choices_id, fold_register_token_exact by exact Hv.
  reflexivity.
Qed.

(** X13.  [prepare_value] is not idempotent on the choices: called a second
    time with the same string on the field it left, it appends the same
    pairs once more. *)
Theorem prepare_value_twice (f : Field) (s : string) :
  validate_choices f = true ->
  let f1 := fst (CommaSeparatedField_prepare_value f (VStr s)) in
  let f2 := fst (CommaSeparatedField_prepare_value f1 (VStr s)) in
  let appended := registered_choices f (Py.split comma s) in
  choices f1 = (choices f ++ appended)%list
  /\ choices f2 = (choices f ++ appended ++ appended)%list.
Proof.
  intros Hv f1 f2 appended. unfold f2, f1, appended.
  unfold CommaSeparatedField_prepare_value.
  rewrite !set_choices_id.
  rewrite (fold_register_token_exact _ f Hv). cbn [fst].
  split; [reflexivity|].
  rewrite fold_register_token_exact by exact Hv.
  pose proof (registered_choices_stable f
                (filter (unregistered f) (Py.split comma s))
                (Py.split comma s)) as Hs.
  change (map (fun t => (VStr t, t ++ NOT_VALID))
            (filter (unregistered f) (Py.split comma s)))
    with (registered_choices f (Py.split comma s)) in Hs.
  rewrite Hs. cbn [choices set_choices]. now rewrite <- app_assoc.
Qed.

(** After [prepare_value], every non-empty token is a key of the choices. *)
Lemma token_valid_after_prepare (f : Field) (tokens : list string)
  (t : string) :
  validate_choices f = true -> In t tokens -> t <> "" ->
  CommaSeparatedField_valid_value
    (set_choices (choices f ++ registered_choices f tokens) f) t = true.
Proof.
  intros Hv Hin Hne. unfold CommaSeparatedField_valid_value.
  cbn [validate_choices set_choices]. rewrite Hv.
  unfold ChoiceField_valid_value. cbn [choices set_choices].
  rewrite existsb_app. apply orb_true_iff.
  destruct (pair_in_choices t (choices f)) eqn:Hp.
  - left. unfold pair_in_choices in Hp.
    apply existsb_exists in Hp. destruct Hp as (kv & Hkv & Heq).
    apply existsb_exists. exists kv. split; [exact Hkv|].
    apply andb_true_iff in Heq. destruct Heq as [Heq _].
    now rewrite Heq.
  - right. apply existsb_exists. exists (VStr t, t ++ NOT_VALID).
    split.
    + unfold registered_choices. apply in_map_iff. exists t.
      split; [reflexivity|]. apply filter_In. split; [exact Hin|].
      unfold unregistered. rewrite Hp.
      apply truthy_VStr in Hne. now rewrite Hne.
    + cbn [fst Py.eq]. now rewrite String.eqb_refl.
Qed.

(** X14.  For every string [s], [clean] applied to what
    [prepare_value(s)] returns, on the field it leaves, gives [s] back,
    whatever the declared choices, provided validation is disabled or [s]
    has no empty token (and the field's validators accept the tokens):
    with validation enabled [prepare_value] has itself made every
    non-empty token a choice. *)
Theorem clean_prepare_value_any_string (f : Field) (s : string) :
  validate_choices f = false
  \/ (forall t, In t (Py.split comma s) -> t <> "") ->
  Forall (fun v => v (Py.split comma s) = None) (validators f) ->
  let '(f', prepared) := CommaSeparatedField_prepare_value f (VStr s) in
  CommaSeparatedField_clean f' prepared = Ok (VStr s).
Proof.
  intros Hcase Hvals.
  destruct (validate_choices f) eqn:Hv.
  - rewrite (prepare_value_appends_unknown_tokens f s Hv).
    change (map (fun v => (VStr v, v ++ " (Not valid)"))
              (filter (fun v => negb (v =? "")
                                && negb (pair_in_choices v (choices f)))
                 (Py.split comma s)))
      with (registered_choices f (Py.split comma s)).
    rewrite clean_valid_tokens.
    + now rewrite join_split.
    + apply split_nonempty.
    + intros t Ht. apply token_valid_after_prepare; auto.
      destruct Hcase as [Hoff|Hne]; [discriminate|auto].
    + exact Hvals.
  - destruct (prepare_value_str f s) as (added & Heq & Hoff & _).
    rewrite Heq, (Hoff Hv), app_nil_r, set_choices_id.
    rewrite clean_valid_tokens.
    + now rewrite join_split.
    + apply split_nonempty.
    + intros t _. unfold CommaSeparatedField_valid_value. now rewrite Hv.
    + exact Hvals.
Qed.

(** X15.  On an empty input ([None], the empty string, an empty list)
    [clean] raises the [required] error when the field is required and
    returns the empty string when it is not. *)
Theorem clean_empty_input (f : Field) (value : Value) :
  Py.truthy value = false ->
  CommaSeparatedField_clean f value
  = if required f then Raise (ValidationError ["required"])
    else Ok (VStr "").
Proof.
  intros Hfalsy.
  unfold CommaSeparatedField_clean, MultipleChoiceField_clean,
    MultipleChoiceField_to_python, MultipleChoiceField_validate.
  rewrite Hfalsy. cbn [negb res_bind]. rewrite andb_true_r.
  destruct (required f); reflexivity.
Qed.

(** X16.  [clean] accepts lists and tuples only: on any other non-empty
    value, the comma-joined string it returns itself included, it raises
    the [invalid_list] error. *)
Theorem clean_rejects_non_list (f : Field) (value : Value) :
  Py.truthy value = true ->
  (forall l, value <> VList l) ->
  (forall l, value <> VTuple l) ->
  CommaSeparatedField_clean f value
  = Raise (ValidationError ["invalid_list"]).
Proof.
  intros Htruthy Hnl Hnt.
  unfold CommaSeparatedField_clean, MultipleChoiceField_clean,
    MultipleChoiceField_to_python.
  rewrite Htruthy. cbn [negb].
  destruct value as [| | | |l|l| | | |]; try reflexivity.
  - now destruct (Hnl l).
  - now destruct (Hnt l).
Qed.

Lemma validate_loop (f : Field) (tokens : list string) :
  for_each tokens
    (fun val _ =>
       if negb (CommaSeparatedField_valid_value f val)
       then Raise (ValidationError ["invalid_choice"])
       else Ok tt) tt
  = if forallb (CommaSeparatedField_valid_value f) tokens
    then Ok tt else Raise (ValidationError ["invalid_choice"]).
Proof.
  induction tokens as [|t tokens IH]; [reflexivity|].
  cbn [for_each forallb].
  destruct (CommaSeparatedField_valid_value f t); cbn; [exact IH|reflexivity].
Qed.

(** X17.  On a non-empty list of strings that the field's validators
    accept, [clean] returns the strings joined with "," when [valid_value]
    holds of each of them, and raises the [invalid_choice] error as soon as
    it fails on one; with [validate_choices=False] it never raises that
    error. *)
Theorem clean_list_of_strings (f : Field) (tokens : list string) :
  tokens <> [] ->
  Forall (fun v => v tokens = None) (validators f) ->
  CommaSeparatedField_clean f (VList (map VStr tokens))
  = (if forallb (CommaSeparatedField_valid_value f) tokens
     then Ok (VStr (Py.join "," tokens))
     else Raise (ValidationError ["invalid_choice"]))
  /\ (validate_choices f = false ->
      CommaSeparatedField_clean f (VList (map VStr tokens))
      = Ok (VStr (Py.join "," tokens))).
Proof.
  intros Hne Hvals.
  assert (Hmain : CommaSeparatedField_clean f (VList (map VStr tokens))
                  = if forallb (CommaSeparatedField_valid_value f) tokens
                    then Ok (VStr (Py.join "," tokens))
                    else Raise (ValidationError ["invalid_choice"])).
  { destruct (forallb (CommaSeparatedField_valid_value f) tokens) eqn:Hall.
    - apply clean_valid_tokens; auto.
      intros t Ht. rewrite forallb_forall in Hall. now apply Hall.
    - unfold CommaSeparatedField_clean, MultipleChoiceField_clean,
        MultipleChoiceField_to_python, MultipleChoiceField_validate.
      destruct tokens as [|t0 tokens0] eqn:Et; [contradiction|].
      rewrite <- Et in *.
      assert (Htruthy : Py.truthy (VList (map VStr tokens)) = true)
        by (rewrite Et; reflexivity).
      rewrite Htruthy. cbn [negb res_bind]. rewrite map_py_str_VStr.
      assert (Hnil : match tokens with [] => true | _ => false end = false)
        by (rewrite Et; reflexivity).
      rewrite Hnil, andb_false_r, validate_loop, Hall. reflexivity. }
  split; [exact Hmain|].
  intros Hoff. rewrite Hmain.
  assert (Hall : forallb (CommaSeparatedField_valid_value f) tokens = true).
  { apply forallb_forall. intros t _.
    unfold CommaSeparatedField_valid_value. now rewrite Hoff. }
  now rewrite Hall.
Qed.

(** X18.  Serializing after [prepare_value]: once [prepare_value(s)] has
    run on a validating field, the comma-separated adapter run on that
    field with [s] for initial value appends an entry only for a token that
    is empty or for which the pair (token, token) was a declared choice;
    every other token already has its entry among the declared ones. *)
Theorem serialize_after_prepare_value
  (self : Remote) (f : Field) (log log' : list LogRecord) (d0 : OD.t)
  (s : string) :
  validate_choices f = true ->
  field self = fst (CommaSeparatedField_prepare_value f (VStr s)) ->
  RemoteField_as_dict self log = (Ok d0, log') ->
  Py.or (form_initial_data self) (initial (field self)) = VStr s ->
  exists d added,
    RemoteCommaSeparatedField_as_dict self log = (Ok d, log')
    /\ OD.getitem "choices" d
       = Ok (VList (declared_entries (field self) ++ added))
    /\ forall e, In e added ->
         exists t, In t (Py.split comma s)
                   /\ e = choice_entry t (t ++ " (Not valid)")
                   /\ (t = "" \/ pair_in_choices t (choices f) = true).
Proof.
  intros Hv Hfield Hb Hs.
  destruct (RemoteField_as_dict_inv _ _ _ _ Hb) as [wd ->].
  pose proof (RemoteCommaSeparatedField_as_dict_run _ _ _ _ _ Hb Hs)
    as Hrun.
  rewrite (prepare_value_appends_unknown_tokens f s Hv) in Hfield. cbn [fst] in Hfield.
  destruct (Py.truthy (VStr s)).
  - destruct (fold_add_entry (field self) (Py.split comma s)
                (declared_entries (field self))
                (declared_entries_are_entries _))
      as (added & Heq & _ & Hin).
    rewrite Heq in Hrun. eexists _, added. split; [exact Hrun|].
    split; [reflexivity|].
    intros e He. apply Hin in He. destruct He as [(t & Ht & ->) Hnew].
    assert (Hvf : validate_choices (field self) = true)
      by (rewrite Hfield; exact Hv).
    exists t. split; [exact Ht|]. unfold token_entry. rewrite Hvf.
    split; [reflexivity|].
    destruct (String.string_dec t "") as [->|Hne]; [now left|right].
    destruct (pair_in_choices t (choices f)) eqn:Hp; [reflexivity|].
    exfalso. apply Hnew. unfold token_entry. rewrite Hvf.
    unfold declared_entries. apply in_map_iff.
    exists (VStr t, t ++ NOT_VALID). split; [reflexivity|].
    rewrite Hfield. cbn [choices set_choices]. apply in_or_app. right.
    apply in_map_iff. exists t. split; [reflexivity|].
    apply filter_In. split; [exact Ht|]. rewrite Hp.
    destruct (String.eqb_spec t ""); [contradiction|reflexivity].
  - eexists _, []. rewrite app_nil_r. split; [exact Hrun|].
    split; [reflexivity|]. intros e [].
Qed.

Lemma split_without_sep (sep : ascii) (s : string) :
  contains_char sep s = false -> Py.split sep s = [s].
Proof.
  induction s as [|c s IH]; cbn [contains_char Py.split]; [reflexivity|].
  intros H. apply orb_false_iff in H. destruct H as [Hc Hs].
  rewrite Hc, (IH Hs). reflexivity.
Qed.

Lemma split_join (tokens : list string) :
  tokens <> [] ->
  (forall t, In t tokens -> contains_char comma t = false) ->
  Py.split comma (Py.join "," tokens) = tokens.
Proof.
  induction tokens as [|x tokens IH]; intros Hne Hfree; [contradiction|].
  destruct tokens as [|y rest].
  - cbn [Py.join]. apply split_without_sep, Hfree. now left.
  - change (Py.join "," (x :: y :: rest))
      with (x ++ String comma (Py.join "," (y :: rest))).
    rewrite split_app_sep, split_without_sep by (apply Hfree; now left).
    rewrite IH; [reflexivity|discriminate|].
    intros t Ht. apply Hfree. now right.
Qed.

(** X19.  Round trip from the cleaned side: when [clean] accepts a
    non-empty list of strings none of which contains a comma,
    [prepare_value] applied to the string it returns gives the same list
    back. *)
Theorem prepare_value_clean_round_trip
  (f : Field) (tokens : list string) (r : Value) :
  tokens <> [] ->
  (forall t, In t tokens -> contains_char comma t = false) ->
  CommaSeparatedField_clean f (VList (map VStr tokens)) = Ok r ->
  r = VStr (Py.join "," tokens)
  /\ snd (CommaSeparatedField_prepare_value f r) = VList (map VStr tokens).
Proof.
  intros Hne Hfree Hclean.
  assert (Hr : r = VStr (Py.join "," tokens)).
  { unfold CommaSeparatedField_clean, MultipleChoiceField_clean,
      MultipleChoiceField_to_python in Hclean.
    assert (Htruthy : Py.truthy (VList (map VStr tokens)) = true)
      by (destruct tokens; [contradiction|reflexivity]).
    rewrite Htruthy in Hclean. cbn [negb res_bind] in Hclean.
    rewrite map_py_str_VStr in Hclean.
    destruct (MultipleChoiceField_validate _ f tokens);
      cbn [res_bind] in Hclean; [|discriminate].
    destruct (Field_run_validators f tokens);
      cbn [res_bind] in Hclean; [|discriminate].
    now inversion Hclean. }
  split; [exact Hr|]. subst r.
  unfold CommaSeparatedField_prepare_value. cbn [snd].
  now rewrite split_join.
Qed.

End Adapters.

(** ** The adapters on concrete fields *)

(** C8, at a failing input.  An IntegerField declared with [initial=5] and
    serialized with the form override [0]: the override is supplied, yet
    [initial] holds the field's own 5, because [or] discards a falsy
    override. *)
Theorem RemoteField_falsy_override_discarded :
  let self :=
    example_remote
      (example_field "IntegerField" "TextInput" (VInt 5) [] [] true)
      (VInt 0) in
  exists d log,
    RemoteField_as_dict example_widgets_getattr self [] = (Ok d, log)
    /\ OD.getitem "initial" d = Ok (VInt 5)
    /\ OD.getitem "initial" d <> Ok (form_initial_data self).
Proof.
  intros self. do 2 eexists. split; [reflexivity|].
  split; [reflexivity|]. discriminate.
Qed.

(** C3, at a failing input.  A DateTimeField with no input formats and a
    [datetime] for initial value: [isinstance(initial, datetime.date)] holds
    for a [datetime], so the date list is substituted and the value is
    rendered with the first date format; the datetime list is not used. *)
Theorem RemoteDateTimeField_takes_date_formats :
  let self :=
    example_remote
      (example_field "DateTimeField" "TextInput"
         (VTemporal (TDateTime 2020 1 2 3 4 5)) [] [] true)
      VNone in
  exists d log,
    as_dict example_widgets_getattr example_settings example_strftime
      example_object_str example_type_name RemoteDateTimeField self [] = (Ok d, log)
    /\ OD.getitem "input_formats" d
       = Ok (VList (map VStr (DATE_INPUT_FORMATS example_settings)))
    /\ OD.getitem "input_formats" d
       <> Ok (VList (map VStr (DATETIME_INPUT_FORMATS example_settings)))
    /\ OD.getitem "initial" d = Ok (VStr "2020-01-02")
    /\ example_strftime (TDateTime 2020 1 2 3 4 5) "%Y-%m-%d %H:%M:%S"
       = "2020-01-02 03:04:05".
Proof.
  intros self. do 2 eexists. split; [vm_compute; reflexivity|].
  split; [reflexivity|]. split; [discriminate|].
  split; reflexivity.
Qed.

(** C7, at a failing input.  A validating comma-separated field declaring
    the choice ("a", "a"), serialized with the initial value "a": the token
    is a valid declared choice and [prepare_value] registers nothing for
    it, yet the adapter appends a second entry for it, labelled
    "a (Not valid)", because its guard compares the whole entry, display
    included, with the declared ones. *)
Theorem RemoteCommaSeparatedField_marks_declared_token :
  let f := example_field "CommaSeparatedField" "TextInput" (VStr "a") []
             [(VStr "a", "a")] true in
  let self := example_remote f VNone in
  ChoiceField_valid_value example_object_str f "a" = true
  /\ choices (fst (CommaSeparatedField_prepare_value f (VStr "a")))
     = choices f
  /\ exists d log,
      as_dict example_widgets_getattr example_settings example_strftime
        example_object_str example_type_name RemoteCommaSeparatedField
        self [] = (Ok d, log)
      /\ OD.getitem "choices" d
         = Ok (VList [choice_entry "a" "a";
                      choice_entry "a" "a (Not valid)"]).
Proof.
  intros f self. split; [reflexivity|]. split; [reflexivity|].
  do 2 eexists. split; [vm_compute; reflexivity|reflexivity].
Qed.

(** C6: with validation disabled and no declared choice, [prepare_value]
    on "x,y" leaves the choice list empty; no choice labeled "x" or "y" is
    registered. *)
Lemma prepare_value_registers_nothing :
  let f := example_field "CommaSeparatedField" "SelectMultiple" VNone [] []
             false in
  let f' := fst (CommaSeparatedField_prepare_value f (VStr "x,y")) in
  validate_choices f = false
  /\ choices f' = []
  /\ ~ (In (VStr "x", "x") (choices f') /\ In (VStr "y", "y") (choices f')).
Proof.
  intros f f'. split; [reflexivity|]. split; [reflexivity|].
  intros [[] _].
Qed.

(** ** The theorems at concrete fields *)

(** A DecimalField: the keys of the dictionary and those of the parent
    adapter's. *)
Lemma as_dict_keys_monotone_witness :
  let self :=
    example_remote
      (example_field "DecimalField" "TextInput" (VInt 3) [] [] true) VNone in
  exists d d',
    as_dict example_widgets_getattr example_settings example_strftime
      example_object_str example_type_name RemoteDecimalField self [] = (Ok d, [])
    /\ OD.keys d
       = ["title"; "required"; "label"; "initial"; "help_text"; "disabled";
          "error_messages"; "widget"; "max_value"; "min_value";
          "max_digits"; "decimal_places"]
    /\ as_dict example_widgets_getattr example_settings example_strftime
         example_object_str example_type_name RemoteIntegerField self [] = (Ok d', [])
    /\ incl (OD.keys d') (OD.keys d).
Proof.
  intros self.
  destruct (as_dict_keys_monotone example_widgets_getattr example_settings
              example_strftime example_object_str example_type_name RemoteDecimalField self
              [] [] _ eq_refl) as (Hkeys & _ & Hparent).
  destruct (Hparent RemoteIntegerField eq_refl) as (d' & Hd' & Hincl).
  eexists _, d'. split; [reflexivity|].
  split; [exact Hkeys|]. split; [exact Hd'|exact Hincl].
Defined.

(** A widget of class [Fancy], for which the module has no adapter. *)
Lemma widget_adapter_fallback_witness :
  let self :=
    example_remote
      (example_field "CharField" "Fancy" VNone [] [] true) VNone in
  example_widgets_getattr "RemoteFancy"
  = Raise (AttributeError
             "module 'django_remote_forms.widgets' has no attribute 'RemoteFancy'")
  /\ exists widget_dict,
      RemoteField_as_dict example_widgets_getattr self []
      = (Ok (base_dict self widget_dict),
         [{| level := WARNING;
             message := "Error serializing RemoteFancy: module 'django_remote_forms.widgets' has no attribute 'RemoteFancy'" |}]).
Proof.
  intros self. split; [reflexivity|].
  eexists.
  exact (proj1 (proj2 (widget_adapter_fallback example_widgets_getattr
                         self [] _ _ _ eq_refl eq_refl eq_refl))).
Defined.

(** A model instance with primary key 7 for initial value. *)
Lemma model_choice_initial_is_pk_witness :
  let instance := VObj 1 [("pk", VInt 7); ("name", VStr "seven")] in
  let self :=
    example_remote
      (example_field "ModelChoiceField" "Select" instance [] [] true)
      VNone in
  (exists d0, RemoteField_as_dict example_widgets_getattr self []
              = (Ok d0, [{| level := WARNING;
                            message := "Error serializing RemoteSelect: module 'django_remote_forms.widgets' has no attribute 'RemoteSelect'" |}]))
  /\ exists d log,
      RemoteModelChoiceField_as_dict example_widgets_getattr
        example_object_str self [] = (Ok d, log)
      /\ OD.getitem "initial" d = Ok (VInt 7).
Proof.
  intros instance self. split; [eexists; reflexivity|].
  destruct (model_choice_initial_is_pk example_widgets_getattr
              example_object_str self [] _ _ eq_refl)
    as [(d & v & Hd & Hv & Hpk & _) _].
  exists d. eexists. split; [exact Hd|].
  rewrite Hv. f_equal. apply Hpk.
  exists 1%nat, [("pk", VInt 7); ("name", VStr "seven")].
  split; reflexivity.
Defined.

(** The declared choices a, b and c. *)
Lemma clean_prepare_value_round_trip_witness :
  let f := example_field "CommaSeparatedField" "SelectMultiple" VNone []
             [(VStr "a", "A"); (VStr "b", "B"); (VStr "c", "C")] true in
  let pv := CommaSeparatedField_prepare_value f (VStr "a,b,c") in
  ChoiceField_valid_value example_object_str f "a" = true
  /\ ChoiceField_valid_value example_object_str f "b" = true
  /\ ChoiceField_valid_value example_object_str f "c" = true
  /\ CommaSeparatedField_clean example_object_str (fst pv) (snd pv)
     = Ok (VStr "a,b,c").
Proof.
  intros f pv. repeat (split; [reflexivity|]).
  pose proof (clean_prepare_value_round_trip example_object_str f
                eq_refl eq_refl eq_refl (Forall_nil _)) as H.
  fold pv in H. destruct pv as [f' prepared]. exact (proj2 H).
Defined.

(** Validation disabled, no declared choice, the input "x,y". *)
Lemma prepare_value_validation_disabled_witness :
  let f := example_field "CommaSeparatedField" "SelectMultiple" VNone [] []
             false in
  validate_choices f = false
  /\ CommaSeparatedField_prepare_value f (VStr "x,y")
     = (f, VList [VStr "x"; VStr "y"])
  /\ CommaSeparatedField_valid_value example_object_str f "x" = true
  /\ CommaSeparatedField_valid_value example_object_str f "y" = true.
Proof.
  intros f. split; [reflexivity|].
  destruct (prepare_value_validation_disabled example_object_str f "x,y"
              eq_refl) as (Hpv & _ & Hvalid).
  split; [exact Hpv|]. split; apply Hvalid.
Defined.

(** Cleaning the list of the declared values a and b. *)
Lemma clean_returns_joined_string_witness :
  let f := example_field "CommaSeparatedField" "SelectMultiple" VNone []
             [(VStr "a", "A"); (VStr "b", "B")] true in
  CommaSeparatedField_clean example_object_str f
    (VList [VStr "a"; VStr "b"]) = Ok (VStr "a,b")
  /\ exists l,
      MultipleChoiceField_clean example_object_str
        (CommaSeparatedField_valid_value example_object_str) f
        (VList [VStr "a"; VStr "b"]) = Ok l
      /\ VStr "a,b" = VStr (Py.join "," l).
Proof.
  intros f. split; [reflexivity|].
  destruct (clean_returns_joined_string example_object_str f
              (VList [VStr "a"; VStr "b"]) (VStr "a,b") eq_refl)
    as (l & Hl & Hjoin & _).
  exists l. split; [exact Hl|exact Hjoin].
Defined.

(** ** The further properties at concrete fields *)

(** A widgets module with no class at all: the base adapter raises the
    error of the default lookup, and so does the CharField adapter. *)
Lemma base_exception_propagates_witness :
  let self :=
    example_remote
      (example_field "CharField" "TextInput" VNone [] [] true) VNone in
  let e :=
    AttributeError
      "module 'django_remote_forms.widgets' has no attribute 'DefaultRemoteInput'" in
  exists log,
    RemoteField_as_dict empty_widgets_getattr self [] = (Raise e, log)
    /\ List.length log = 1%nat
    /\ as_dict empty_widgets_getattr example_settings example_strftime
         example_object_str example_type_name RemoteCharField self [] = (Raise e, log).
Proof.
  intros self e. eexists. split; [reflexivity|]. split; [reflexivity|].
  apply (base_exception_propagates empty_widgets_getattr example_settings
           example_strftime example_object_str example_type_name RemoteCharField self).
  reflexivity.
Defined.

(** The model-choice adapter holds under [choices] what its parent holds. *)
Lemma as_dict_frame_witness :
  let self :=
    example_remote
      (example_field "ModelChoiceField" "TextInput"
         (VObj 1 [("pk", VInt 7)]) [] [(VInt 7, "seven")] true) VNone in
  exists d d',
    as_dict example_widgets_getattr example_settings example_strftime
      example_object_str example_type_name RemoteModelChoiceField self [] = (Ok d, [])
    /\ as_dict example_widgets_getattr example_settings example_strftime
         example_object_str example_type_name RemoteChoiceField self [] = (Ok d', [])
    /\ OD.getitem "choices" d = OD.getitem "choices" d'
    /\ OD.getitem "initial" d = Ok (VInt 7).
Proof.
  intros self. eexists. eexists.
  split; [reflexivity|]. split; [reflexivity|]. split; [|reflexivity].
  apply (as_dict_frame example_widgets_getattr example_settings
           example_strftime example_object_str
           example_type_name RemoteModelChoiceField RemoteChoiceField self [] []
           _ _ eq_refl eq_refl eq_refl).
  cbn. intros [H|[]]. discriminate.
Defined.

(** The FilePathField adapter returns when the base adapter does. *)
Lemma as_dict_returns_witness :
  let self :=
    example_remote
      (example_field "FilePathField" "TextInput" VNone [] [] true) VNone in
  (exists d0, RemoteField_as_dict example_widgets_getattr self []
              = (Ok d0, []))
  /\ exists d,
      as_dict example_widgets_getattr example_settings example_strftime
        example_object_str example_type_name RemoteFilePathField self [] = (Ok d, []).
Proof.
  intros self. split; [eexists; reflexivity|].
  exact (as_dict_returns example_widgets_getattr example_settings
           example_strftime example_object_str example_type_name RemoteFilePathField self
           [] _ [] eq_refl eq_refl).
Defined.

(** A DateTimeField declaring one format. *)
Lemma time_family_explicit_formats_witness :
  let self :=
    example_remote
      (example_field "DateTimeField" "TextInput"
         (VTemporal (TDateTime 2020 1 2 3 4 5)) ["%d/%m/%Y %H:%M"] []
         true) VNone in
  exists d,
    as_dict example_widgets_getattr empty_settings example_strftime
      example_object_str example_type_name RemoteDateTimeField self [] = (Ok d, [])
    /\ OD.getitem "initial" d = Ok (VStr "02/01/2020 03:04").
Proof.
  intros self.
  destruct (time_family_explicit_formats example_widgets_getattr
              empty_settings example_strftime example_object_str
              example_type_name RemoteDateTimeField self [] [] _
              (TDateTime 2020 1 2 3 4 5) "%d/%m/%Y %H:%M" []
              eq_refl eq_refl eq_refl eq_refl) as (d & Hd & _ & Hinit).
  exists d. split; [exact Hd|exact Hinit].
Defined.

(** A TimeField with no format and a time for initial value. *)
Lemma time_family_default_formats_witness :
  let self :=
    example_remote
      (example_field "TimeField" "TextInput" (VTemporal (TTime 9 30 0))
         [] [] true) VNone in
  exists d,
    as_dict example_widgets_getattr example_settings example_strftime
      example_object_str example_type_name RemoteTimeField self [] = (Ok d, [])
    /\ OD.getitem "input_formats" d
       = Ok (VList [VStr "%H:%M:%S"; VStr "%H:%M:%S.%f"; VStr "%H:%M"])
    /\ OD.getitem "initial" d = Ok (VStr "09:30:00").
Proof.
  intros self.
  exact (time_family_default_formats example_widgets_getattr
           example_settings example_strftime example_object_str
           example_type_name RemoteTimeField self [] [] _ (TTime 9 30 0) _ _
           eq_refl eq_refl eq_refl eq_refl eq_refl eq_refl).
Defined.

(** A DateField whose initial value is a callable returning [None]. *)
Lemma time_family_callable_initial_witness :
  let self :=
    example_remote
      (example_field "DateField" "TextInput" (VCallable 1 VNone) [] []
         true) VNone in
  exists d,
    as_dict example_widgets_getattr example_settings example_strftime
      example_object_str example_type_name RemoteDateField self [] = (Ok d, [])
    /\ OD.getitem "initial" d = Ok VNone.
Proof.
  intros self.
  destruct (proj1 (time_family_callable_initial example_widgets_getattr
                     example_settings example_strftime example_object_str
                     example_type_name RemoteDateField self [] [] _ 1 VNone
                     eq_refl eq_refl eq_refl)) as (d & Hd & Hinit & _).
  - intros t. discriminate.
  - exists d. split; [exact Hd|exact Hinit].
Defined.

(** A DateField with no format, under settings with no date format. *)
Lemma time_family_no_format_raises_witness :
  let self :=
    example_remote
      (example_field "DateField" "TextInput" (VTemporal (TDate 2020 1 2))
         [] [] true) VNone in
  as_dict example_widgets_getattr empty_settings example_strftime
    example_object_str example_type_name RemoteDateField self []
  = (Raise (IndexError "list index out of range"), []).
Proof.
  intros self.
  exact (time_family_no_format_raises example_widgets_getattr
           empty_settings example_strftime example_object_str
           example_type_name RemoteDateField self [] [] _ (TDate 2020 1 2)
           eq_refl eq_refl eq_refl eq_refl eq_refl eq_refl).
Defined.

(** A TimeField whose initial value is already a string. *)
Lemma time_family_other_initial_witness :
  let self :=
    example_remote
      (example_field "TimeField" "TextInput" (VStr "09:30") ["%H:%M"] []
         true) VNone in
  exists d,
    as_dict example_widgets_getattr example_settings example_strftime
      example_object_str example_type_name RemoteTimeField self [] = (Ok d, [])
    /\ OD.getitem "initial" d = Ok (VStr "09:30").
Proof.
  intros self.
  destruct (time_family_other_initial example_widgets_getattr
              example_settings example_strftime example_object_str
              example_type_name RemoteTimeField self [] [] _ eq_refl eq_refl eq_refl)
    as (d & Hd & Hinit & _).
  - intros t. discriminate.
  - exists d. split; [exact Hd|exact Hinit].
Defined.

(** A TypedChoiceField with an integer key and a string key. *)
Lemma choice_family_serializes_declared_witness :
  let self :=
    example_remote
      (example_field "TypedChoiceField" "TextInput" VNone []
         [(VInt 1, "one"); (VStr "b", "bee")] true) VNone in
  exists d entries,
    as_dict example_widgets_getattr example_settings example_strftime
      example_object_str example_type_name RemoteTypedChoiceField self [] = (Ok d, [])
    /\ OD.getitem "choices" d = Ok (VList entries)
    /\ List.length entries = 2%nat
    /\ nth_error entries 0 = Some (choice_entry "1" "one")
    /\ nth_error entries 1 = Some (choice_entry "b" "bee").
Proof.
  intros self.
  destruct (choice_family_serializes_declared example_widgets_getattr
              example_settings example_strftime example_object_str
              example_type_name RemoteTypedChoiceField self [] [] _ eq_refl eq_refl)
    as (entries & Hget & Hlen & Hnth).
  eexists _, entries. split; [reflexivity|]. split; [exact Hget|].
  split; [exact Hlen|].
  split; [exact (Hnth 0%nat _ _ eq_refl)|exact (Hnth 1%nat _ _ eq_refl)].
Defined.


(** The declared choice ("a", "a") and the input ",x,a,x". *)
Lemma prepare_value_appends_unknown_tokens_witness :
  let f := example_field "CommaSeparatedField" "SelectMultiple" VNone []
             [(VStr "a", "a")] true in
  validate_choices f = true
  /\ choices (fst (CommaSeparatedField_prepare_value f (VStr ",x,a,x")))
     = [(VStr "a", "a"); (VStr "x", "x (Not valid)");
        (VStr "x", "x (Not valid)")].
Proof.
  intros f. split; [reflexivity|].
  rewrite (prepare_value_appends_unknown_tokens f ",x,a,x" eq_refl). reflexivity.
Defined.

(** The same field prepared twice with "x". *)
Lemma prepare_value_twice_witness :
  let f := example_field "CommaSeparatedField" "SelectMultiple" VNone []
             [(VStr "a", "a")] true in
  let f1 := fst (CommaSeparatedField_prepare_value f (VStr "x")) in
  let f2 := fst (CommaSeparatedField_prepare_value f1 (VStr "x")) in
  validate_choices f = true
  /\ choices f2
     = [(VStr "a", "a"); (VStr "x", "x (Not valid)");
        (VStr "x", "x (Not valid)")].
Proof.
  intros f f1 f2. split; [reflexivity|]. unfold f2, f1.
  rewrite (proj2 (prepare_value_twice f "x" eq_refl)). reflexivity.
Defined.

(** No declared choice at all, and the input "p,q". *)
Lemma clean_prepare_value_any_string_witness :
  let f := example_field "CommaSeparatedField" "SelectMultiple" VNone []
             [] true in
  let pv := CommaSeparatedField_prepare_value f (VStr "p,q") in
  (forall t, In t (Py.split comma "p,q") -> t <> "")
  /\ CommaSeparatedField_clean example_object_str (fst pv) (snd pv)
     = Ok (VStr "p,q").
Proof.
  intros f pv.
  assert (Hne : forall t, In t (Py.split comma "p,q") -> t <> "").
  { intros t [<-|[<-|[]]]; discriminate. }
  split; [exact Hne|].
  pose proof (clean_prepare_value_any_string example_object_str f "p,q"
                (or_intror Hne) (Forall_nil _)) as H.
  fold pv in H. destruct pv as [f' prepared]. exact H.
Defined.

(** A required field cleaned on [None]. *)
Lemma clean_empty_input_witness :
  let f := example_field "CommaSeparatedField" "SelectMultiple" VNone []
             [(VStr "a", "a")] true in
  CommaSeparatedField_clean example_object_str f VNone
  = Raise (ValidationError ["required"]).
Proof.
  intros f.
  exact (clean_empty_input example_object_str f VNone eq_refl).
Defined.

(** Cleaning the string "a,b" itself. *)
Lemma clean_rejects_non_list_witness :
  let f := example_field "CommaSeparatedField" "SelectMultiple" VNone []
             [(VStr "a", "a"); (VStr "b", "b")] true in
  CommaSeparatedField_clean example_object_str f (VStr "a,b")
  = Raise (ValidationError ["invalid_list"]).
Proof.
  intros f.
  apply (clean_rejects_non_list example_object_str f (VStr "a,b") eq_refl);
    intros l; discriminate.
Defined.

(** A list with a value that is no declared choice. *)
Lemma clean_list_of_strings_witness :
  let f := example_field "CommaSeparatedField" "SelectMultiple" VNone []
             [(VStr "a", "a")] true in
  CommaSeparatedField_clean example_object_str f
    (VList [VStr "a"; VStr "z"])
  = Raise (ValidationError ["invalid_choice"]).
Proof.
  intros f.
  exact (proj1 (clean_list_of_strings example_object_str f ["a"; "z"]
                  ltac:(discriminate) (Forall_nil _))).
Defined.

(** The declared choice ("a", "a"), the string "x,a" prepared and then
    serialized: the one entry appended is the one of "a". *)
Lemma serialize_after_prepare_value_witness :
  let f := example_field "CommaSeparatedField" "TextInput"
             (VStr "x,a") [] [(VStr "a", "a")] true in
  let f' := fst (CommaSeparatedField_prepare_value f (VStr "x,a")) in
  let self := example_remote f' VNone in
  exists d added,
    RemoteCommaSeparatedField_as_dict example_widgets_getattr
      example_object_str example_type_name self [] = (Ok d, [])
    /\ OD.getitem "choices" d
       = Ok (VList (declared_entries example_object_str f' ++ added))
    /\ forall e, In e added -> e = choice_entry "a" "a (Not valid)".
Proof.
  intros f f' self.
  destruct (serialize_after_prepare_value example_widgets_getattr
              example_object_str example_type_name self f [] [] _ "x,a"
              eq_refl eq_refl eq_refl eq_refl)
    as (d & added & Hd & Hchoices & Hadded).
  exists d, added. split; [exact Hd|]. split; [exact Hchoices|].
  intros e He. destruct (Hadded e He) as (t & Ht & -> & Hwhy).
  destruct Ht as [<-|[<-|[]]].
  - destruct Hwhy as [Hwhy|Hwhy]; discriminate.
  - reflexivity.
Defined.

(** The declared values a and b, cleaned and prepared again. *)
Lemma prepare_value_clean_round_trip_witness :
  let f := example_field "CommaSeparatedField" "SelectMultiple" VNone []
             [(VStr "a", "A"); (VStr "b", "B")] true in
  CommaSeparatedField_clean example_object_str f
    (VList [VStr "a"; VStr "b"]) = Ok (VStr "a,b")
  /\ snd (CommaSeparatedField_prepare_value f (VStr "a,b"))
     = VList [VStr "a"; VStr "b"].
Proof.
  intros f. split; [reflexivity|].
  apply (prepare_value_clean_round_trip example_object_str f ["a"; "b"]
           (VStr "a,b")).
  - discriminate.
  - intros t [<-|[<-|[]]]; reflexivity.
  - reflexivity.
Defined.
